(** * inbenta_api_signature: the signature client and its transport adapter

    A shallow embedding of [inbenta_api_signature/__init__.py]: the class
    [SignatureClient], which selects one signature protocol and delegates to
    it, and the class [SignatureAdapter], which signs outgoing requests and
    reports the validity of the signature of a response.

    Python values are dynamically typed; the embedding keeps the part of a
    value that the code observes: its truth value, its [str()], whether it is
    an instance of [BaseVersion], and the protocol attributes it offers.
    Exceptions are an explicit result, and the calls made on a protocol object
    are recorded in the world that every method threads. *)

From Stdlib Require Import Ascii String NArith Lia.
From stdpp Require Import base option strings gmap list.

Local Open Scope string_scope.

(** ** Strings: [str.lower] on the characters that matter here *)

(** [str.lower()] restricted to ASCII: the letters A-Z move to a-z, every
    other byte is kept. No character outside ASCII lower-cases into the
    letter v or the digit 1, so the comparison with a registered version
    name is the one Python makes. *)
Definition ascii_lower (c : ascii) : ascii :=
  let n := N_of_ascii c in
  if ((65 <=? n) && (n <=? 90))%N then ascii_of_N (n + 32) else c.

Fixpoint lower (s : string) : string :=
  match s with
  | EmptyString => EmptyString
  | String c s' => String (ascii_lower c) (lower s')
  end.

(** ** Results and exceptions *)

Inductive PyExc : Type :=
| ValueError (msg : string)
| AttributeError (msg : string)
| ProtocolError (msg : string).

Inductive Result (A : Type) : Type :=
| Ok (a : A)
| Raise (e : PyExc).
Arguments Ok {A} a.
Arguments Raise {A} e.

Definition result_bind {A B} (r : Result A) (f : A -> Result B) : Result B :=
  match r with
  | Ok a => f a
  | Raise e => Raise e
  end.

Definition is_ok {A} (r : Result A) : bool :=
  match r with Ok _ => true | Raise _ => false end.

(** ** A state and exception monad

    A method is a function from the state before the call to its result and
    the state after it. A raised exception keeps the state reached so far,
    as mutation in Python is not rolled back. *)

Definition M (S A : Type) : Type := S -> Result A * S.

Definition ret {S A} (a : A) : M S A := fun s => (Ok a, s).

Definition raise {S A} (e : PyExc) : M S A := fun s => (Raise e, s).

Definition bind {S A B} (m : M S A) (f : A -> M S B) : M S B :=
  fun s =>
    match m s with
    | (Ok a, s') => f a s'
    | (Raise e, s') => (Raise e, s')
    end.

Definition gets {S A} (f : S -> A) : M S A := fun s => (Ok (f s), s).

Definition modify {S} (f : S -> S) : M S unit := fun s => (Ok tt, f s).

Declare Scope py_scope.
Delimit Scope py_scope with py.
Notation "'call!' x <- m ; k" := (bind m (fun x => k))
  (at level 10, x name, m at level 100, k at level 200,
   format "'[v' 'call!'  x  <-  m ; '/' k ']'") : py_scope.

(** ** Headers and query parameters *)

Abbreviation Headers := (gmap string string).
Abbreviation Params := (gmap string string).

(** ** Protocol objects *)

Inductive MethodName : Type :=
| M_genTimestamp
| M_signRequest
| M_getHeaders
| M_validateResponse.

(** The capability set of a protocol object: what the client reads from and
    calls on [self._signProtocol]. Every method can read the clock (its first
    argument) and can raise. [Signature] is what [signRequest] returns and
    [getHeaders] consumes. *)
Module BaseVersion.
Record t {Signature : Type} : Type := {
  SIGNATURE_HEADER : string;
  genTimestamp : nat -> Result string;
  signRequest :
    nat -> string -> option string -> option Params -> option string ->
    option string -> Result Signature;
  getHeaders : nat -> Signature -> Result Headers;
  validateResponse :
    nat -> string -> string -> option string -> Result bool
}.
Arguments t : clear implicits.
End BaseVersion.

Section Objects.

Context {Signature : Type}.

(** An object offering the capability set, as the constructor of the client
    sees it: whether [isinstance(o, BaseVersion)] holds, its truth value,
    its [str()], and its attributes. *)
Record PyObject : Type := {
  isinstance_BaseVersion : bool;
  obj_bool : bool;
  obj_str : string;
  obj_protocol : BaseVersion.t Signature
}.

(** The values the [signatureVersion] argument can take. [PyOther] is any
    other value (a number, a list, ...), seen through [bool()] and
    [str()]. *)
Inductive PyValue : Type :=
| PyNone
| PyStr (s : string)
| PyObj (o : PyObject)
| PyOther (truth : bool) (repr : string).

Definition py_bool (v : PyValue) : bool :=
  match v with
  | PyNone => false
  | PyStr s => negb (String.eqb s "")
  | PyObj o => obj_bool o
  | PyOther b _ => b
  end.

Definition py_str (v : PyValue) : string :=
  match v with
  | PyNone => "None"
  | PyStr s => s
  | PyObj o => obj_str o
  | PyOther _ r => r
  end.

(** [a or b] *)
Definition py_or (a b : PyValue) : PyValue := if py_bool a then a else b.

(** [isinstance(v, BaseVersion)] *)
Definition isinstance (v : PyValue) : bool :=
  match v with
  | PyObj o => isinstance_BaseVersion o
  | _ => false
  end.

(** [d.get(k)] on a dictionary of protocol objects. *)
Definition dict_get (d : gmap string PyObject) (k : string) : PyValue :=
  match d !! k with
  | Some o => PyObj o
  | None => PyNone
  end.

(** ** The world: the clock and the calls made on protocol objects *)

Record Call : Type := { call_receiver : PyObject; call_method : MethodName }.

Record World : Type := { now : nat; calls : list Call }.

Definition log_call (o : PyObject) (m : MethodName) (w : World) : World :=
  {| now := now w;
     calls := calls w ++ [ {| call_receiver := o; call_method := m |} ] |}.

End Objects.

Arguments PyObject : clear implicits.
Arguments PyValue : clear implicits.
Arguments Call : clear implicits.
Arguments World : clear implicits.

(** ** class SignatureClient *)

Module SignatureClient.
Section Client.

Context {Signature : Type}.

(** The constructor of the protocol class [V1], from
    [inbenta_api_signature/protocol.py]: [V1(signatureKey, baseUrl=baseUrl)]. *)
Variable V1 : string -> option string -> PyObject Signature.

Record t : Type := { _signProtocol : PyValue Signature }.

Definition unsupported : PyExc :=
  ValueError "Signature Version is not correct. Supported versions: [v1]".

(** The dictionary literal of the constructor: one entry, built eagerly. *)
Definition registry (signatureKey : string) (baseUrl : option string)
  : gmap string (PyObject Signature) :=
  {[ "v1" := V1 signatureKey baseUrl ]}.

Definition __init__ (signatureKey : string) (baseUrl : option string)
    (signatureVersion : PyValue Signature) : Result t :=
  let signatureVersion := py_or signatureVersion (PyStr "v1") in
  let signatureVersion :=
    if negb (isinstance signatureVersion) then
      dict_get (registry signatureKey baseUrl)
               (lower (py_str signatureVersion))
    else signatureVersion in
  if negb (py_bool signatureVersion) then Raise unsupported
  else Ok {| _signProtocol := signatureVersion |}.

(** The state a method runs in: the client object and the world. *)
Record State : Type := { self : t; world : World Signature }.

(** Reading an attribute of [self._signProtocol]: only an object has the
    protocol attributes. *)
Definition signProtocol : M State (PyObject Signature) :=
  fun st =>
    match _signProtocol (self st) with
    | PyObj o => (Ok o, st)
    | _ => (Raise (AttributeError "protocol attribute"), st)
    end.

(** Calling method [m] of protocol object [o]. *)
Definition invoke {A} (o : PyObject Signature) (m : MethodName)
    (f : nat -> Result A) : M State A :=
  fun st =>
    (f (now (world st)),
     {| self := self st; world := log_call o m (world st) |}).

Local Open Scope py_scope.

Definition SIGNATURE_HEADER : M State string :=
  call! o <- signProtocol;
  ret (BaseVersion.SIGNATURE_HEADER (obj_protocol o)).

Definition genTimestamp : M State string :=
  call! o <- signProtocol;
  invoke o M_genTimestamp (BaseVersion.genTimestamp (obj_protocol o)).

Definition signRequest (url : string) (params : option Params)
    (body : option string) (method : option string)
    (timestamp : option string) : M State Headers :=
  call! o <- signProtocol;
  call! signature <-
    invoke o M_signRequest
      (fun clock =>
         BaseVersion.signRequest (obj_protocol o) clock
           url method params body timestamp);
  call! o' <- signProtocol;
  invoke o' M_getHeaders
    (fun clock => BaseVersion.getHeaders (obj_protocol o') clock signature).

Definition validateResponse (signature : string) (body : string)
    (timestamp : option string) : M State bool :=
  call! o <- signProtocol;
  invoke o M_validateResponse
    (fun clock =>
       BaseVersion.validateResponse (obj_protocol o) clock
         signature body timestamp).

(** The state after the methods [ms] were called, in this order, on [o]:
    nothing but the record of calls has changed. *)
Definition after_calls (o : PyObject Signature) (ms : list MethodName)
    (st : State) : State :=
  {| self := self st;
     world :=
       {| now := now (world st);
          calls :=
            calls (world st)
            ++ map (fun m => {| call_receiver := o; call_method := m |}) ms
       |} |}.

(** The public operations, as a caller issues them one after the other. A
    caller that catches an exception goes on with the same client. *)
Inductive Op : Type :=
| Read_SIGNATURE_HEADER
| Call_genTimestamp
| Call_signRequest (url : string) (params : option Params)
    (body : option string) (method : option string)
    (timestamp : option string)
| Call_validateResponse (signature : string) (body : string)
    (timestamp : option string).

Definition perform (op : Op) (st : State) : State :=
  match op with
  | Read_SIGNATURE_HEADER => snd (SIGNATURE_HEADER st)
  | Call_genTimestamp => snd (genTimestamp st)
  | Call_signRequest url params body method timestamp =>
      snd (signRequest url params body method timestamp st)
  | Call_validateResponse signature body timestamp =>
      snd (validateResponse signature body timestamp st)
  end.

Fixpoint run (ops : list Op) (st : State) : State :=
  match ops with
  | [] => st
  | op :: ops' => run ops' (perform op st)
  end.

End Client.
End SignatureClient.

Arguments SignatureClient.t : clear implicits.
Arguments SignatureClient.State : clear implicits.

(** ** Requests and responses of the transport *)

(** The prepared request handed to [add_headers]. *)
Record Request : Type := {
  url : string;
  method : option string;
  body : option string;
  headers : Headers
}.

(** The response object built by the transport: its headers and its decoded
    body. *)
Record Response : Type := {
  response_headers : Headers;
  text : string
}.

(** [bool(d.get(k))] fails for a missing key and for an empty value. *)
Definition truthy_header (v : option string) : option string :=
  match v with
  | Some s => if String.eqb s "" then None else Some s
  | None => None
  end.

(** ** class SignatureAdapter *)

Module SignatureAdapter.
Section Adapter.

Context {Signature : Type}.
Variable V1 : string -> option string -> PyObject Signature.

(** The transport this adapter extends: what the connection hands over and
    [HTTPAdapter.build_response], which turns it into a response object. *)
Context {RawResponse : Type}.
Variable HTTPAdapter_build_response : Request -> RawResponse -> Response.

Record t : Type := {
  _client : SignatureClient.t Signature;
  _timestamp : option string
}.

(** The response object after [build_response]: the response of the
    transport with its new attribute [validSignature], which holds [None],
    [True] or [False]. *)
Record Validated : Type := {
  response : Response;
  validSignature : option bool
}.

Record State : Type := { self : t; world : World Signature }.

Definition __init__ (signatureKey : string) (baseUrl : option string)
    (signatureVersion : PyValue Signature) : Result t :=
  result_bind (SignatureClient.__init__ V1 signatureKey baseUrl signatureVersion)
    (fun client => Ok {| _client := client; _timestamp := None |}).

(** Running a method of [self._client]. *)
Definition on_client {A} (m : M (SignatureClient.State Signature) A)
  : M State A :=
  fun st =>
    let '(r, cs) :=
      m {| SignatureClient.self := _client (self st);
           SignatureClient.world := world st |} in
    (r, {| self := {| _client := SignatureClient.self cs;
                      _timestamp := _timestamp (self st) |};
           world := SignatureClient.world cs |}).

(** [self._timestamp = v] *)
Definition set_timestamp (v : option string) : M State unit :=
  modify (fun st =>
    {| self := {| _client := _client (self st); _timestamp := v |};
       world := world st |}).

Local Open Scope py_scope.

(** Returns the request after [request.headers.update(headers)]. The update
    is by exact header name; the header dictionary of the transport also
    replaces a header whose name differs in capitalisation only, which this
    model keeps beside the new one. *)
Definition add_headers (request : Request) : M State Request :=
  call! ts <- on_client SignatureClient.genTimestamp;
  call! _u <- set_timestamp (Some ts);
  call! stamp <- gets (fun st => _timestamp (self st));
  call! signed <-
    on_client
      (SignatureClient.signRequest (url request) None (body request)
         (method request) stamp);
  ret {| url := url request;
         method := method request;
         body := body request;
         headers := signed ∪ headers request |}.

Definition build_response (req : Request) (resp : RawResponse)
  : M State Validated :=
  let response := HTTPAdapter_build_response req resp in
  call! name <- on_client SignatureClient.SIGNATURE_HEADER;
  let signature := response_headers response !! name in
  match truthy_header signature with
  | Some signature =>
      call! stamp <- gets (fun st => _timestamp (self st));
      call! valid <-
        on_client
          (SignatureClient.validateResponse signature (text response) stamp);
      ret {| response := response; validSignature := Some valid |}
  | None => ret {| response := response; validSignature := None |}
  end.

(** The two hooks of the transport, as it calls them request after request.
    A transport that catches an exception goes on with the same adapter. *)
Inductive Op : Type :=
| Call_add_headers (request : Request)
| Call_build_response (req : Request) (resp : RawResponse).

Definition perform (op : Op) (st : State) : State :=
  match op with
  | Call_add_headers request => snd (add_headers request st)
  | Call_build_response req resp => snd (build_response req resp st)
  end.

Fixpoint run (ops : list Op) (st : State) : State :=
  match ops with
  | [] => st
  | op :: ops' => run ops' (perform op st)
  end.

End Adapter.
End SignatureAdapter.

Arguments SignatureAdapter.t : clear implicits.
Arguments SignatureAdapter.State : clear implicits.

(** ** Protocol version 1 *)

(** [hmac.compare_digest]-style comparison: every byte pair is combined, the
    differences are accumulated with bitwise or, and only the final
    accumulator is tested, so the running time does not depend on where the
    first difference is. Strings of different lengths never compare equal. *)
Fixpoint accumulate_diff (a b : string) (acc : N) : N :=
  match a, b with
  | String x a', String y b' =>
      accumulate_diff a' b' (N.lor acc (N.lxor (N_of_ascii x) (N_of_ascii y)))
  | _, _ => acc
  end.

Definition compare_digest (a b : string) : bool :=
  (String.length a =? String.length b)%nat && (accumulate_diff a b 0 =? 0)%N.

Module V1.
Section Version1.

(** The parts of version 1 that the specification leaves to the version:
    the keyed-hash digest, the two canonical layouts, the timestamp format,
    the header name and whether a response is checked with a timestamp. *)
Variable digest : string -> string -> string.
Variable canonicalRequest :
  option string -> string -> option string -> option Params ->
  option string -> string -> string.
Variable canonicalResponse : string -> option string -> string.
Variable formatTimestamp : nat -> string.
Variable header : string.
Variable timestampRequired : bool.

Definition genTimestamp (clock : nat) : Result string :=
  Ok (formatTimestamp clock).

(** A timestamp is supplied by the caller or generated at signing time. Which
    inputs count as malformed, and fail as section 4.1 says, is left to the
    version and not modelled: signing here always returns. *)
Definition signRequest (key : string) (baseUrl : option string)
    (clock : nat) (url : string) (method : option string)
    (params : option Params) (body : option string)
    (timestamp : option string) : Result string :=
  let timestamp :=
    match timestamp with
    | Some ts => ts
    | None => formatTimestamp clock
    end in
  Ok (digest key (canonicalRequest baseUrl url method params body timestamp)).

Definition getHeaders (clock : nat) (signature : string) : Result Headers :=
  Ok {[ header := signature ]}.

Definition validateResponse (key : string) (clock : nat)
    (signature : string) (body : string) (timestamp : option string)
  : Result bool :=
  match timestamp, timestampRequired with
  | None, true => Ok false
  | _, _ =>
      Ok (compare_digest (digest key (canonicalResponse body timestamp))
                         signature)
  end.

(** Modelled from the spec: the class [V1] of
    [inbenta_api_signature/protocol.py], which is not part of the sources
    at hand. Section 4.1 of the specification fixes its shape: a keyed-hash
    digest over the canonical request for [signRequest], a header set that
    carries the signature under [SIGNATURE_HEADER] for [getHeaders], and for
    [validateResponse] the digest recomputed over the response body and the
    timestamp, compared in constant time with the signature received, with
    [False] for a missing timestamp where one is required. An instance is a
    [BaseVersion] and, as any object without [__bool__], is true. *)
Definition V1 (signatureKey : string) (baseUrl : option string)
  : PyObject string :=
  {| isinstance_BaseVersion := true;
     obj_bool := true;
     obj_str := "<V1 object>";
     obj_protocol :=
       {| BaseVersion.SIGNATURE_HEADER := header;
          BaseVersion.genTimestamp := genTimestamp;
          BaseVersion.signRequest := signRequest signatureKey baseUrl;
          BaseVersion.getHeaders := getHeaders;
          BaseVersion.validateResponse := validateResponse signatureKey |} |}.

End Version1.
End V1.

(** ** A concrete instance: the scenario of the specification *)

Module Scenario.

(** A transparent keyed digest: the key, a separator, the message. The
    digest and the two layouts below are placeholders, chosen to be readable
    when evaluated; they say nothing about the layout of the real version 1. *)
Definition digest (key message : string) : string := key ++ "#" ++ message.

Definition render (params : option Params) : string :=
  match params with
  | Some d => map_fold (fun k v acc => k ++ "=" ++ v ++ ";" ++ acc) "" d
  | None => ""
  end.

Definition canonicalRequest (baseUrl : option string) (url : string)
    (method : option string) (params : option Params)
    (body : option string) (timestamp : string) : string :=
  default "" method ++ "&" ++ url ++ "&" ++ render params ++ "&"
    ++ default "" body ++ "&" ++ timestamp.

Definition canonicalResponse (body : string) (timestamp : option string)
  : string :=
  body ++ "&" ++ default "" timestamp.

Definition formatTimestamp (clock : nat) : string :=
  String (ascii_of_nat (48 + clock mod 10)) "".

Definition header : string := "x-inbenta-signature".

Definition V1 : string -> option string -> PyObject string :=
  V1.V1 digest canonicalRequest canonicalResponse formatTimestamp header true.

Definition key : string := "secret123".
Definition endpoint : string := "https://api.example.com/v1/items?foo=bar".
Definition stamp : string := "1700000000".

Definition world0 : World string := {| now := 7; calls := [] |}.


(** The client and the adapter built from the key alone, the adapter after
    it signed a request at [stamp]. *)
Definition client : SignatureClient.t string :=
  {| SignatureClient._signProtocol := PyObj (V1 key None) |}.

Definition start : SignatureClient.State string :=
  {| SignatureClient.self := client; SignatureClient.world := world0 |}.

Definition adapter : SignatureAdapter.t string :=
  {| SignatureAdapter._client := client;
     SignatureAdapter._timestamp := Some stamp |}.

Definition serving : SignatureAdapter.State string :=
  {| SignatureAdapter.self := adapter; SignatureAdapter.world := world0 |}.

Definition request : Request :=
  {| url := endpoint; method := Some "GET"; body := Some ""; headers := ∅ |}.

(** The transport of the scenario hands the response over as it is. *)
Definition transport (req : Request) (raw : Response) : Response := raw.

(** Responses: without a signature header, with an empty one, with the
    digest of the body, and with another signature. *)
Definition unsigned : Response :=
  {| response_headers := ∅; text := "{}" |}.

Definition blank : Response :=
  {| response_headers := {[ header := "" ]}; text := "{}" |}.

Definition genuine : Response :=
  {| response_headers := {[ header := "secret123#{}&1700000000" ]};
     text := "{}" |}.

Definition forged : Response :=
  {| response_headers := {[ header := "0123456789abcdef" ]}; text := "{}" |}.

(** A protocol object that hands out timestamps and refuses to sign. *)
Definition refusing : PyObject string :=
  {| isinstance_BaseVersion := true;
     obj_bool := true;
     obj_str := "<Refusing object>";
     obj_protocol :=
       {| BaseVersion.SIGNATURE_HEADER := header;
          BaseVersion.genTimestamp := fun clock => Ok (formatTimestamp clock);
          BaseVersion.signRequest :=
            fun _ _ _ _ _ _ => Raise (ProtocolError "cannot sign");
          BaseVersion.getHeaders := fun _ signature => Ok {[ header := signature ]};
          BaseVersion.validateResponse :=
            fun _ _ _ _ => Raise (ProtocolError "cannot validate") |} |}.

Definition stuck : SignatureAdapter.State string :=
  {| SignatureAdapter.self :=
       {| SignatureAdapter._client :=
            {| SignatureClient._signProtocol := PyObj refusing |};
          SignatureAdapter._timestamp := Some stamp |};
     SignatureAdapter.world := world0 |}.

(** An adapter that has not signed anything yet. *)
Definition idle : SignatureAdapter.t string :=
  {| SignatureAdapter._client := client; SignatureAdapter._timestamp := None |}.

(** A request that already carries headers, one of them under the name of
    the signature header. *)
Definition tagged : Request :=
  {| url := endpoint;
     method := Some "POST";
     body := Some "{}";
     headers := {[ "accept" := "application/json"; header := "stale" ]} |}.

Definition later : World string := {| now := 9; calls := [] |}.

End Scenario.

Example scenario_sign :
  fst (SignatureClient.signRequest Scenario.endpoint None (Some "") (Some "GET")
         (Some Scenario.stamp)
         {| SignatureClient.self :=
              {| SignatureClient._signProtocol :=
                   PyObj (Scenario.V1 Scenario.key None) |};
            SignatureClient.world := Scenario.world0 |})
  = Ok {[ "x-inbenta-signature" :=
            "secret123#GET&https://api.example.com/v1/items?foo=bar&&&1700000000" ]}.
Proof. vm_compute. reflexivity. Qed.

(** * Properties *)

(** ** Lower-casing *)

Lemma ascii_lower_idem (c : ascii) : ascii_lower (ascii_lower c) = ascii_lower c.
Proof. destruct c as [[] [] [] [] [] [] [] []]; vm_compute; reflexivity. Qed.

Lemma lower_idem (s : string) : lower (lower s) = lower s.
Proof.
  induction s as [|c s IH]; simpl; [reflexivity|].
  rewrite ascii_lower_idem, IH. reflexivity.
Qed.

Lemma lower_empty_iff (s : string) : lower s = "" <-> s = "".
Proof. destruct s; simpl; split; intros H; congruence. Qed.

Lemma eqb_empty_lower (s : string) :
  String.eqb (lower s) "" = String.eqb s "".
Proof. destruct s; reflexivity. Qed.

(** ** Constant-time comparison decides equality *)

Lemma accumulate_diff_acc (a b : string) (acc : N) :
  accumulate_diff a b acc = N.lor acc (accumulate_diff a b 0).
Proof.
  revert b acc. induction a as [|x a IH]; intros [|y b] acc; simpl;
    try (rewrite N.lor_0_r; reflexivity).
  rewrite (IH b (N.lor acc _)).
  rewrite (IH b (N.lor 0 _)), N.lor_assoc. reflexivity.
Qed.

Lemma N_of_ascii_inj (x y : ascii) : N_of_ascii x = N_of_ascii y -> x = y.
Proof.
  intros H. rewrite <- (ascii_N_embedding x), <- (ascii_N_embedding y), H.
  reflexivity.
Qed.

Lemma accumulate_diff_zero (a b : string) :
  String.length a = String.length b ->
  accumulate_diff a b 0 = 0%N <-> a = b.
Proof.
  revert b. induction a as [|x a IH]; intros [|y b] Hlen; simpl in *;
    try discriminate; [tauto|].
  injection Hlen as Hlen.
  rewrite accumulate_diff_acc, ?N.lor_0_l, N.lor_eq_0_iff, N.lxor_eq_0_iff.
  rewrite (IH b Hlen).
  split.
  - intros [Hxy ->]. apply N_of_ascii_inj in Hxy. congruence.
  - intros [= -> ->]. split; reflexivity.
Qed.

Lemma compare_digest_true (a b : string) : compare_digest a b = true <-> a = b.
Proof.
  unfold compare_digest. rewrite andb_true_iff, Nat.eqb_eq, N.eqb_eq. split.
  - intros [Hlen Hacc]. apply (accumulate_diff_zero a b Hlen), Hacc.
  - intros ->. split; [reflexivity|]. apply accumulate_diff_zero; reflexivity.
Qed.

Lemma compare_digest_false (a b : string) : a <> b -> compare_digest a b = false.
Proof.
  intros Hne. destruct (compare_digest a b) eqn:E; [|reflexivity].
  apply compare_digest_true in E. contradiction.
Qed.

Lemma compare_digest_refl (a : string) : compare_digest a a = true.
Proof. apply compare_digest_true. reflexivity. Qed.

(** ** The constructor of the client *)

Section Construction.

Context {Signature : Type}.
Variable V1 : string -> option string -> PyObject Signature.

Local Abbreviation init := (SignatureClient.__init__ V1).

Lemma dict_get_registry (key : string) (baseUrl : option string) (k : string) :
  dict_get (SignatureClient.registry V1 key baseUrl) k
  = if String.eqb k "v1" then PyObj (V1 key baseUrl) else PyNone.
Proof.
  unfold dict_get, SignatureClient.registry.
  rewrite lookup_singleton.
  destruct (String.eqb_spec k "v1") as [->|Hne].
  - rewrite decide_True by reflexivity. reflexivity.
  - rewrite decide_False by congruence. reflexivity.
Qed.

(** A string selects by its lower-cased form; the empty string is false
    and stands for the default. *)
Lemma init_string (key : string) (baseUrl : option string) (s : string) :
  init key baseUrl (PyStr s)
  = if String.eqb s "" || String.eqb (lower s) "v1" then
      if obj_bool (V1 key baseUrl)
      then Ok {| SignatureClient._signProtocol := PyObj (V1 key baseUrl) |}
      else Raise SignatureClient.unsupported
    else Raise SignatureClient.unsupported.
Proof.
  unfold SignatureClient.__init__, py_or. simpl.
  destruct (String.eqb_spec s "") as [->|Hne]; simpl.
  - rewrite dict_get_registry. simpl.
    destruct (obj_bool (V1 key baseUrl)); reflexivity.
  - rewrite dict_get_registry.
    destruct (String.eqb (lower s) "v1"); simpl; [|reflexivity].
    destruct (obj_bool (V1 key baseUrl)); reflexivity.
Qed.

(** A value that is false is replaced by the name of the default version. *)
Lemma init_falsy (key : string) (baseUrl : option string)
    (v : PyValue Signature) :
  py_bool v = false -> init key baseUrl v = init key baseUrl (PyStr "v1").
Proof.
  intros Hv. unfold SignatureClient.__init__, py_or.
  rewrite Hv. reflexivity.
Qed.

(** An instance of [BaseVersion] that is true is kept as it is. *)
Lemma init_instance (key : string) (baseUrl : option string)
    (o : PyObject Signature) :
  isinstance_BaseVersion o = true -> obj_bool o = true ->
  init key baseUrl (PyObj o)
  = Ok {| SignatureClient._signProtocol := PyObj o |}.
Proof.
  intros Hi Hb. unfold SignatureClient.__init__, py_or. simpl.
  rewrite Hb. simpl. rewrite Hi. simpl. rewrite Hb. reflexivity.
Qed.

(** An object of another class goes through the registry under its
    [str()]. *)
Lemma init_foreign (key : string) (baseUrl : option string)
    (o : PyObject Signature) :
  isinstance_BaseVersion o = false -> obj_bool o = true ->
  init key baseUrl (PyObj o) = init key baseUrl (PyStr (lower (obj_str o)))
  \/ obj_str o = "".
Proof.
  intros Hi Hb. destruct (String.eqb_spec (obj_str o) "") as [He|Hne];
    [right; exact He|left].
  unfold SignatureClient.__init__, py_or. simpl.
  rewrite Hb, eqb_empty_lower. simpl. rewrite Hi.
  destruct (String.eqb_spec (obj_str o) ""); [contradiction|]. simpl.
  rewrite lower_idem. reflexivity.
Qed.

(** Whatever the argument, a client that was constructed holds an object
    that is true. *)
Lemma init_bound (key : string) (baseUrl : option string)
    (v : PyValue Signature) (client : SignatureClient.t Signature) :
  init key baseUrl v = Ok client ->
  exists o, SignatureClient._signProtocol client = PyObj o
            /\ obj_bool o = true
            /\ (o = V1 key baseUrl
                \/ (v = PyObj o /\ isinstance_BaseVersion o = true)).
Proof.
  unfold SignatureClient.__init__, py_or.
  destruct (py_bool v) eqn:Hv.
  - destruct (isinstance v) eqn:Hi; simpl.
    + destruct v as [| |o|]; simpl in Hi; try discriminate.
      simpl in Hv. simpl. rewrite Hv. simpl.
      intros [= <-]. exists o. simpl. auto.
    + rewrite dict_get_registry.
      destruct (String.eqb _ "v1"); simpl; [|discriminate].
      destruct (obj_bool (V1 key baseUrl)) eqn:Hb; simpl; [|discriminate].
      intros [= <-]. exists (V1 key baseUrl). simpl. auto.
  - simpl. rewrite dict_get_registry. simpl.
    destruct (obj_bool (V1 key baseUrl)) eqn:Hb; simpl; [|discriminate].
    intros [= <-]. exists (V1 key baseUrl). simpl. auto.
Qed.

End Construction.

(** ** The methods of the client delegate to the bound object *)

Section Delegation.

Context {Signature : Type}.

Implicit Types (o : PyObject Signature).
Implicit Types (st : SignatureClient.State Signature).

Import SignatureClient.

Lemma after_calls_nil o st : after_calls o [] st = st.
Proof.
  unfold after_calls. simpl. rewrite app_nil_r.
  destruct st as [c [n cs]]; reflexivity.
Qed.

Lemma SIGNATURE_HEADER_bound o st :
  _signProtocol (self st) = PyObj o ->
  SIGNATURE_HEADER st = (Ok (BaseVersion.SIGNATURE_HEADER (obj_protocol o)), st).
Proof.
  intros Hb. unfold SIGNATURE_HEADER, bind, signProtocol. rewrite Hb.
  reflexivity.
Qed.

Lemma genTimestamp_bound o st :
  _signProtocol (self st) = PyObj o ->
  genTimestamp st
  = (BaseVersion.genTimestamp (obj_protocol o) (now (world st)),
     after_calls o [M_genTimestamp] st).
Proof.
  intros Hb. unfold genTimestamp, bind, signProtocol. rewrite Hb.
  reflexivity.
Qed.

Lemma validateResponse_bound o st signature body timestamp :
  _signProtocol (self st) = PyObj o ->
  validateResponse signature body timestamp st
  = (BaseVersion.validateResponse (obj_protocol o) (now (world st))
       signature body timestamp,
     after_calls o [M_validateResponse] st).
Proof.
  intros Hb. unfold validateResponse, bind, signProtocol. rewrite Hb.
  reflexivity.
Qed.

Lemma signRequest_bound o st url params body method timestamp :
  _signProtocol (self st) = PyObj o ->
  signRequest url params body method timestamp st
  = match BaseVersion.signRequest (obj_protocol o) (now (world st))
            url method params body timestamp with
    | Ok signature =>
        (BaseVersion.getHeaders (obj_protocol o) (now (world st)) signature,
         after_calls o [M_signRequest; M_getHeaders] st)
    | Raise e => (Raise e, after_calls o [M_signRequest] st)
    end.
Proof.
  intros Hb. unfold signRequest, bind, signProtocol. rewrite Hb.
  unfold invoke at 1. cbn [fst snd].
  destruct (BaseVersion.signRequest _ _ _ _ _ _ _) as [sig|e]; [|reflexivity].
  cbn. rewrite Hb. unfold invoke, after_calls, log_call. cbn.
  rewrite <- app_assoc. reflexivity.
Qed.

End Delegation.

(** ** Sequences of operations *)

Section Sequences.

Context {Signature : Type}.

Implicit Types (o : PyObject Signature).
Implicit Types (st : SignatureClient.State Signature).

Import SignatureClient.

Lemma after_calls_app o ms1 ms2 st :
  after_calls o ms2 (after_calls o ms1 st) = after_calls o (ms1 ++ ms2) st.
Proof.
  unfold after_calls. cbn. rewrite map_app, app_assoc. reflexivity.
Qed.

Lemma after_calls_bound o ms st :
  _signProtocol (self (after_calls o ms st)) = _signProtocol (self st).
Proof. reflexivity. Qed.

Lemma perform_after_calls o op st :
  _signProtocol (self st) = PyObj o ->
  exists ms, perform op st = after_calls o ms st.
Proof.
  intros Hb. destruct op as [| |url params body method ts|sig body ts]; cbn.
  - rewrite (SIGNATURE_HEADER_bound o st Hb). exists []. cbn.
    symmetry. apply after_calls_nil.
  - rewrite (genTimestamp_bound o st Hb). eexists. reflexivity.
  - rewrite (signRequest_bound o st _ _ _ _ _ Hb).
    destruct (BaseVersion.signRequest _ _ _ _ _ _ _); eexists; reflexivity.
  - rewrite (validateResponse_bound o st _ _ _ Hb). eexists. reflexivity.
Qed.

Lemma run_after_calls o ops st :
  _signProtocol (self st) = PyObj o ->
  exists ms, run ops st = after_calls o ms st.
Proof.
  revert st. induction ops as [|op ops IH]; intros st Hb; cbn.
  - exists []. symmetry. apply after_calls_nil.
  - destruct (perform_after_calls o op st Hb) as [ms1 ->].
    destruct (IH (after_calls o ms1 st)) as [ms2 ->].
    + rewrite after_calls_bound. exact Hb.
    + exists (ms1 ++ ms2)%list. apply after_calls_app.
Qed.

Lemma after_calls_receivers o ms :
  Forall (fun c => call_receiver c = o)
    (map (fun m => {| call_receiver := o; call_method := m |}) ms).
Proof. induction ms; constructor; auto. Qed.

End Sequences.

(** ** The client: construction, composition, binding *)

Section ClientTheorems.

Context {Signature : Type}.
Variable V1 : string -> option string -> PyObject Signature.

Local Abbreviation init := (SignatureClient.__init__ V1).
Local Abbreviation bound_to o :=
  {| SignatureClient._signProtocol := PyObj o |}.
Local Abbreviation state c w :=
  {| SignatureClient.self := c; SignatureClient.world := w |}.

(** C3, as the code has it. A version name is compared in lower case:
    "V1" and "v1" both give a client bound to version 1, a string and its
    lower-cased form always give the same outcome, and every string that is
    not empty and whose lower-cased form is not a registered name makes the
    constructor raise [ValueError]. The empty string is left out: it is
    false, so it stands for the default. *)
Theorem version_name_case_insensitive (key : string) (baseUrl : option string) :
  obj_bool (V1 key baseUrl) = true ->
  init key baseUrl (PyStr "V1") = Ok (bound_to (V1 key baseUrl))
  /\ init key baseUrl (PyStr "v1") = Ok (bound_to (V1 key baseUrl))
  /\ (forall s, init key baseUrl (PyStr s) = init key baseUrl (PyStr (lower s)))
  /\ (forall s, s <> "" -> lower s <> "v1" ->
        init key baseUrl (PyStr s) = Raise SignatureClient.unsupported).
Proof.
  intros Hb. repeat split.
  - rewrite init_string. cbn. rewrite Hb. reflexivity.
  - rewrite init_string. cbn. rewrite Hb. reflexivity.
  - intros s. rewrite !init_string, lower_idem, eqb_empty_lower. reflexivity.
  - intros s Hne Hv. rewrite init_string.
    destruct (String.eqb_spec s ""); [contradiction|].
    destruct (String.eqb_spec (lower s) "v1"); [contradiction|]. reflexivity.
Qed.

(** C5. When [signatureVersion] is omitted, [None], or any other value that
    is false, the client is bound to version 1, built from the key and the
    base url. *)
Theorem default_version_is_v1 (key : string) (baseUrl : option string)
    (v : PyValue Signature) :
  py_bool v = false ->
  obj_bool (V1 key baseUrl) = true ->
  init key baseUrl v = Ok (bound_to (V1 key baseUrl)).
Proof.
  intros Hv Hb. rewrite (init_falsy V1 key baseUrl v Hv), init_string.
  cbn. rewrite Hb. reflexivity.
Qed.


(** C6. On a constructed client, [signRequest] returns exactly
    [getHeaders(signRequest(url, method, params, body, timestamp))] of the
    bound protocol, a mapping from header names to values; it makes these
    two calls and no other, and [getHeaders] is not called when signing
    raised. *)
Theorem signRequest_is_composition (key : string) (baseUrl : option string)
    (v : PyValue Signature) (client : SignatureClient.t Signature) :
  init key baseUrl v = Ok client ->
  exists o,
    SignatureClient._signProtocol client = PyObj o
    /\ forall url params body method timestamp w,
         let p := obj_protocol o in
         let out :=
           SignatureClient.signRequest url params body method timestamp
             (state client w) in
         let signed :=
           BaseVersion.signRequest p (now w) url method params body timestamp in
         fst out = result_bind signed (BaseVersion.getHeaders p (now w))
         /\ snd out
            = SignatureClient.after_calls o
                (M_signRequest :: if is_ok signed then [M_getHeaders] else [])
                (state client w).
Proof.
  intros Hinit.
  destruct (init_bound V1 key baseUrl v client Hinit) as (o & Ho & _).
  exists o. split; [exact Ho|].
  intros url params body method timestamp w p out signed. subst out.
  rewrite (signRequest_bound o (state client w) _ _ _ _ _ Ho). cbn.
  fold p. fold signed. destruct signed; split; reflexivity.
Qed.

(** C8. Whatever sequence of public operations is issued on a constructed
    client, the client object is the one that was constructed, its protocol
    is the one selected at construction, and every call made on a protocol
    during the sequence was made on that one. *)
Theorem bound_protocol_is_stable (key : string) (baseUrl : option string)
    (v : PyValue Signature) (client : SignatureClient.t Signature) :
  init key baseUrl v = Ok client ->
  forall (ops : list SignatureClient.Op) (w : World Signature),
    let st' := SignatureClient.run ops (state client w) in
    SignatureClient.self st' = client
    /\ exists o new,
         SignatureClient._signProtocol (SignatureClient.self st') = PyObj o
         /\ calls (SignatureClient.world st') = (calls w ++ new)%list
         /\ Forall (fun c => call_receiver c = o) new.
Proof.
  intros Hinit ops w st'.
  destruct (init_bound V1 key baseUrl v client Hinit) as (o & Ho & _).
  destruct (run_after_calls o ops (state client w) Ho) as [ms Hrun].
  subst st'. rewrite Hrun. split; [reflexivity|].
  exists o. eexists. repeat split.
  - exact Ho.
  - apply after_calls_receivers.
Qed.

End ClientTheorems.

(** ** The adapter *)

Section AdapterTheorems.

Context {Signature RawResponse : Type}.
Variable HTTPAdapter_build_response : Request -> RawResponse -> Response.

Implicit Types (o : PyObject Signature) (a : SignatureAdapter.t Signature).
Implicit Types (w : World Signature).

Local Abbreviation build_response :=
  (SignatureAdapter.build_response HTTPAdapter_build_response).
Local Abbreviation state a w :=
  {| SignatureAdapter.self := a; SignatureAdapter.world := w |}.
Local Abbreviation bound a :=
  (SignatureClient._signProtocol (SignatureAdapter._client a)).
Local Abbreviation validated r v :=
  {| SignatureAdapter.response := r; SignatureAdapter.validSignature := v |}.

Local Abbreviation cstate c w :=
  {| SignatureClient.self := c; SignatureClient.world := w |}.

(** The state of the adapter after [validateResponse] was called on [o]. *)
Local Abbreviation after_validation o a w :=
  (state a (log_call o M_validateResponse w)).

Lemma on_client_bound {A} (m : M (SignatureClient.State Signature) A) a w :
  SignatureAdapter.on_client m (state a w)
  = let out := m {| SignatureClient.self := SignatureAdapter._client a;
                    SignatureClient.world := w |} in
    (fst out,
     state {| SignatureAdapter._client := SignatureClient.self (snd out);
              SignatureAdapter._timestamp := SignatureAdapter._timestamp a |}
           (SignatureClient.world (snd out))).
Proof.
  unfold SignatureAdapter.on_client. cbn.
  destruct (m _) as [r cs]. reflexivity.
Qed.

(** What [build_response] computes, by cases on the header. *)
Lemma build_response_bound o a w req resp :
  bound a = PyObj o ->
  build_response req resp (state a w)
  = let response := HTTPAdapter_build_response req resp in
    match truthy_header
            (response_headers response
               !! BaseVersion.SIGNATURE_HEADER (obj_protocol o)) with
    | Some signature =>
        match BaseVersion.validateResponse (obj_protocol o) (now w)
                signature (text response) (SignatureAdapter._timestamp a) with
        | Ok valid =>
            (Ok (validated response (Some valid)), after_validation o a w)
        | Raise e => (Raise e, after_validation o a w)
        end
    | None => (Ok (validated response None), state a w)
    end.
Proof.
  intros Hb. destruct a as [client stamp]. cbn in Hb.
  unfold SignatureAdapter.build_response, bind.
  rewrite on_client_bound. cbn.
  rewrite (SIGNATURE_HEADER_bound o (cstate client w) Hb). cbn.
  destruct (truthy_header _) as [signature|]; [|reflexivity].
  unfold gets. cbn. rewrite on_client_bound. cbn.
  rewrite (validateResponse_bound o (cstate client w) _ _ _ Hb). cbn.
  destruct (BaseVersion.validateResponse _ _ _ _ _); reflexivity.
Qed.

(** [add_headers] stores the timestamp it generated and signs with it. *)
Lemma add_headers_records_timestamp o a w request request' st' :
  bound a = PyObj o ->
  SignatureAdapter.add_headers request (state a w) = (Ok request', st') ->
  exists ts signature signed,
    BaseVersion.genTimestamp (obj_protocol o) (now w) = Ok ts
    /\ BaseVersion.signRequest (obj_protocol o) (now w) (url request)
         (method request) None (body request) (Some ts) = Ok signature
    /\ BaseVersion.getHeaders (obj_protocol o) (now w) signature = Ok signed
    /\ SignatureAdapter._timestamp (SignatureAdapter.self st') = Some ts
    /\ SignatureAdapter._client (SignatureAdapter.self st')
       = SignatureAdapter._client a
    /\ headers request' = signed ∪ headers request.
Proof.
  intros Hb. destruct a as [client stamp]. cbn in Hb.
  unfold SignatureAdapter.add_headers, bind.
  rewrite on_client_bound. cbn.
  rewrite (genTimestamp_bound o (cstate client w) Hb). cbn.
  destruct (BaseVersion.genTimestamp _ _) as [ts|e] eqn:Hts; [|discriminate].
  unfold SignatureAdapter.set_timestamp, modify, gets. cbn.
  rewrite on_client_bound. cbn.
  rewrite (signRequest_bound o (cstate client _) _ _ _ _ _ Hb). cbn.
  destruct (BaseVersion.signRequest _ _ _ _ _ _ _) as [sig|e] eqn:Hs;
    [|discriminate]. cbn.
  destruct (BaseVersion.getHeaders _ _ _) as [hs|e] eqn:Hh; [|discriminate].
  unfold ret. intros [= <- <-]. exists ts, sig, hs. cbn. auto 10.
Qed.

(** C9, as the code has it. [build_response] reports three states in the
    attribute [validSignature]: [None] when the response has no signature
    header or an empty one; [True] when a signature that is not empty is
    accepted by [validateResponse] for the text of the response and the
    timestamp stored at signing; [False] when it is rejected. *)
Theorem validSignature_three_states o a w req resp :
  bound a = PyObj o ->
  let response := HTTPAdapter_build_response req resp in
  let name := BaseVersion.SIGNATURE_HEADER (obj_protocol o) in
  let out := fst (build_response req resp (state a w)) in
  (response_headers response !! name = None ->
     out = Ok (validated response None))
  /\ (response_headers response !! name = Some "" ->
        out = Ok (validated response None))
  /\ (forall signature valid,
        response_headers response !! name = Some signature ->
        signature <> "" ->
        BaseVersion.validateResponse (obj_protocol o) (now w) signature
          (text response) (SignatureAdapter._timestamp a) = Ok valid ->
        out = Ok (validated response (Some valid))).
Proof.
  intros Hb response name out. subst out.
  rewrite (build_response_bound o a w req resp Hb). cbn.
  fold response. fold name. split; [|split].
  - intros ->. reflexivity.
  - intros ->. reflexivity.
  - intros signature valid -> Hne Hv. cbn.
    destruct (String.eqb_spec signature ""); [contradiction|].
    rewrite Hv. reflexivity.
Qed.

(** C10. When the signature header of the response is present with the
    empty string as its value, [build_response] sets [validSignature] to
    [None] and leaves the state as it was: [validateResponse] is not
    called. *)
Theorem empty_signature_is_unsigned o a w req resp :
  bound a = PyObj o ->
  response_headers (HTTPAdapter_build_response req resp)
    !! BaseVersion.SIGNATURE_HEADER (obj_protocol o) = Some "" ->
  build_response req resp (state a w)
  = (Ok (validated (HTTPAdapter_build_response req resp) None), state a w)
  /\ calls (SignatureAdapter.world (snd (build_response req resp (state a w))))
     = calls w.
Proof.
  intros Hb Hh.
  rewrite (build_response_bound o a w req resp Hb). cbn.
  rewrite Hh. cbn. split; reflexivity.
Qed.

End AdapterTheorems.

(** ** Version 1 behind the client *)

Section Version1Theorems.

Variable digest : string -> string -> string.
Variable canonicalRequest :
  option string -> string -> option string -> option Params ->
  option string -> string -> string.
Variable canonicalResponse : string -> option string -> string.
Variable formatTimestamp : nat -> string.
Variable header : string.
Variable timestampRequired : bool.

Local Abbreviation V1 :=
  (V1.V1 digest canonicalRequest canonicalResponse formatTimestamp header
     timestampRequired).
Local Abbreviation init := (SignatureClient.__init__ V1).
Local Abbreviation state c w :=
  {| SignatureClient.self := c; SignatureClient.world := w |}.

Implicit Types (client : SignatureClient.t string) (w : World string).

(** A client built from a key and anything but a protocol instance is bound
    to version 1 with that key. *)
Lemma init_selects_V1 key baseUrl (v : PyValue string) client :
  isinstance v = false ->
  init key baseUrl v = Ok client ->
  SignatureClient._signProtocol client = PyObj (V1 key baseUrl).
Proof.
  intros Hi Hinit.
  destruct (init_bound V1 key baseUrl v client Hinit)
    as (o & Ho & _ & [->|[-> Hio]]); [exact Ho|].
  cbn in Hi. congruence.
Qed.

Lemma V1_validateResponse_supplied key baseUrl client w signature body ts :
  SignatureClient._signProtocol client = PyObj (V1 key baseUrl) ->
  fst (SignatureClient.validateResponse signature body (Some ts)
         (state client w))
  = Ok (compare_digest (digest key (canonicalResponse body (Some ts)))
                       signature).
Proof.
  intros Hb.
  rewrite (validateResponse_bound (V1 key baseUrl) (state client w) _ _ _ Hb).
  cbn. unfold V1.validateResponse. destruct timestampRequired; reflexivity.
Qed.

(** C7. For a client built from a key, [validateResponse] returns [False],
    as a value, for every signature that differs from the digest of the
    response; and for every signature whatsoever it returns a boolean and
    does not raise. *)
Theorem mismatch_is_false key baseUrl (v : PyValue string) client :
  isinstance v = false ->
  init key baseUrl v = Ok client ->
  forall signature body timestamp w,
    (signature <> digest key (canonicalResponse body timestamp) ->
     fst (SignatureClient.validateResponse signature body timestamp
            (state client w)) = Ok false)
    /\ exists valid,
         fst (SignatureClient.validateResponse signature body timestamp
                (state client w)) = Ok valid.
Proof.
  intros Hi Hinit signature body timestamp w.
  pose proof (init_selects_V1 key baseUrl v client Hi Hinit) as Hb.
  rewrite (validateResponse_bound _ (state client w) _ _ _ Hb). cbn.
  unfold V1.validateResponse. split.
  - intros Hne. rewrite compare_digest_false by congruence.
    destruct timestamp, timestampRequired; reflexivity.
  - destruct timestamp, timestampRequired; eexists; reflexivity.
Qed.

(** If signing and then validating succeeded for every request, the
    signature could not depend on the url, the method or the parameters:
    two requests with the same body and timestamp would carry the same
    signature. *)
Lemma round_trip_forces_equal_signatures key baseUrl client w body ts
    url1 params1 method1 url2 params2 method2 :
  SignatureClient._signProtocol client = PyObj (V1 key baseUrl) ->
  fst (SignatureClient.validateResponse
         (digest key
            (canonicalRequest baseUrl url1 method1 params1 (Some body) ts))
         body (Some ts) (state client w)) = Ok true ->
  fst (SignatureClient.validateResponse
         (digest key
            (canonicalRequest baseUrl url2 method2 params2 (Some body) ts))
         body (Some ts) (state client w)) = Ok true ->
  digest key (canonicalRequest baseUrl url1 method1 params1 (Some body) ts)
  = digest key (canonicalRequest baseUrl url2 method2 params2 (Some body) ts).
Proof.
  intros Hb.
  rewrite !(V1_validateResponse_supplied key baseUrl client w) by exact Hb.
  intros [= H1] [= H2].
  apply compare_digest_true in H1, H2. congruence.
Qed.

End Version1Theorems.

(** ** The scenario of the specification, evaluated *)

Example scenario_default_client :
  SignatureClient.__init__ Scenario.V1 Scenario.key None PyNone
  = Ok Scenario.client.
Proof. reflexivity. Qed.

Example scenario_validate_own_digest :
  fst (SignatureClient.validateResponse "secret123#&1700000000" ""
         (Some Scenario.stamp) Scenario.start) = Ok true.
Proof. vm_compute. reflexivity. Qed.

Example scenario_validate_other_body :
  fst (SignatureClient.validateResponse "secret123#&1700000000" "different-body"
         (Some Scenario.stamp) Scenario.start) = Ok false.
Proof. vm_compute. reflexivity. Qed.

Example scenario_genuine_response :
  fst (SignatureAdapter.build_response Scenario.transport Scenario.request
         Scenario.genuine Scenario.serving)
  = Ok {| SignatureAdapter.response := Scenario.genuine;
          SignatureAdapter.validSignature := Some true |}.
Proof. vm_compute. reflexivity. Qed.

Example scenario_forged_response :
  fst (SignatureAdapter.build_response Scenario.transport Scenario.request
         Scenario.forged Scenario.serving)
  = Ok {| SignatureAdapter.response := Scenario.forged;
          SignatureAdapter.validSignature := Some false |}.
Proof. vm_compute. reflexivity. Qed.

(** ** Instances and counterexamples *)

(** C3, instance: with the version 1 of the scenario, the name "v2" is
    refused. *)
Lemma version_name_case_insensitive_witness :
  obj_bool (Scenario.V1 Scenario.key None) = true
  /\ "v2" <> ""
  /\ lower "v2" <> "v1"
  /\ SignatureClient.__init__ Scenario.V1 Scenario.key None (PyStr "v2")
     = Raise SignatureClient.unsupported.
Proof.
  assert (Hb : obj_bool (Scenario.V1 Scenario.key None) = true) by reflexivity.
  assert (Hne : "v2" <> "") by discriminate.
  assert (Hv : lower "v2" <> "v1") by (vm_compute; discriminate).
  refine (conj Hb (conj Hne (conj Hv _))).
  exact (proj2 (proj2 (proj2
           (version_name_case_insensitive Scenario.V1 Scenario.key None Hb)))
           "v2" Hne Hv).
Defined.

(** C3, counterexample: the empty string is not a registered version name,
    and the constructor returns a client bound to version 1 for it. *)
Lemma empty_version_name_constructs :
  lower "" <> "v1"
  /\ SignatureClient.__init__ Scenario.V1 Scenario.key None (PyStr "")
     = Ok Scenario.client
  /\ SignatureClient.__init__ Scenario.V1 Scenario.key None (PyStr "")
     <> Raise SignatureClient.unsupported.
Proof.
  split; [vm_compute; discriminate|].
  split; [reflexivity|discriminate].
Qed.



(** C5, instance: [None] selects version 1. *)
Lemma default_version_is_v1_witness :
  py_bool (PyNone (Signature:=string)) = false
  /\ obj_bool (Scenario.V1 Scenario.key None) = true
  /\ SignatureClient.__init__ Scenario.V1 Scenario.key None PyNone
     = Ok Scenario.client.
Proof.
  assert (Hv : py_bool (PyNone (Signature:=string)) = false) by reflexivity.
  assert (Hb : obj_bool (Scenario.V1 Scenario.key None) = true) by reflexivity.
  refine (conj Hv (conj Hb _)).
  exact (default_version_is_v1 Scenario.V1 Scenario.key None PyNone Hv Hb).
Defined.

(** C6, instance: the scenario request, signed by the default client. *)
Lemma signRequest_is_composition_witness :
  SignatureClient.__init__ Scenario.V1 Scenario.key None PyNone
  = Ok Scenario.client
  /\ fst (SignatureClient.signRequest Scenario.endpoint None (Some "")
            (Some "GET") (Some Scenario.stamp) Scenario.start)
     = result_bind
         (BaseVersion.signRequest (obj_protocol (Scenario.V1 Scenario.key None))
            7 Scenario.endpoint (Some "GET") None (Some "")
            (Some Scenario.stamp))
         (BaseVersion.getHeaders (obj_protocol (Scenario.V1 Scenario.key None))
            7).
Proof.
  assert (Hinit : SignatureClient.__init__ Scenario.V1 Scenario.key None PyNone
                  = Ok Scenario.client) by reflexivity.
  refine (conj Hinit _).
  destruct (signRequest_is_composition Scenario.V1 Scenario.key None PyNone
              Scenario.client Hinit) as (o & Ho & Hall).
  injection Ho as Ho. subst o.
  exact (proj1 (Hall Scenario.endpoint None (Some "") (Some "GET")
                  (Some Scenario.stamp) Scenario.world0)).
Defined.

(** C8, instance: after four operations the default client is unchanged. *)
Lemma bound_protocol_is_stable_witness :
  SignatureClient.__init__ Scenario.V1 Scenario.key None PyNone
  = Ok Scenario.client
  /\ SignatureClient.self
       (SignatureClient.run
          [SignatureClient.Call_genTimestamp;
           SignatureClient.Call_signRequest Scenario.endpoint None (Some "")
             (Some "GET") (Some Scenario.stamp);
           SignatureClient.Read_SIGNATURE_HEADER;
           SignatureClient.Call_validateResponse "0123456789abcdef" ""
             (Some Scenario.stamp)]
          Scenario.start)
     = Scenario.client.
Proof.
  assert (Hinit : SignatureClient.__init__ Scenario.V1 Scenario.key None PyNone
                  = Ok Scenario.client) by reflexivity.
  refine (conj Hinit _).
  exact (proj1 (bound_protocol_is_stable Scenario.V1 Scenario.key None PyNone
                  Scenario.client Hinit _ Scenario.world0)).
Defined.

(** C9, instance: a response whose signature is the digest of its body and
    of the signing timestamp is reported valid. *)
Lemma validSignature_three_states_witness :
  SignatureClient._signProtocol (SignatureAdapter._client Scenario.adapter)
  = PyObj (Scenario.V1 Scenario.key None)
  /\ response_headers Scenario.genuine !! Scenario.header
     = Some "secret123#{}&1700000000"
  /\ "secret123#{}&1700000000" <> ""
  /\ BaseVersion.validateResponse (obj_protocol (Scenario.V1 Scenario.key None))
       7 "secret123#{}&1700000000" (text Scenario.genuine)
       (Some Scenario.stamp) = Ok true
  /\ fst (SignatureAdapter.build_response Scenario.transport Scenario.request
            Scenario.genuine Scenario.serving)
     = Ok {| SignatureAdapter.response := Scenario.genuine;
             SignatureAdapter.validSignature := Some true |}.
Proof.
  assert (Hb : SignatureClient._signProtocol
                 (SignatureAdapter._client Scenario.adapter)
               = PyObj (Scenario.V1 Scenario.key None)) by reflexivity.
  assert (Hh : response_headers Scenario.genuine !! Scenario.header
               = Some "secret123#{}&1700000000") by (vm_compute; reflexivity).
  assert (Hne : "secret123#{}&1700000000" <> "") by discriminate.
  assert (Hv : BaseVersion.validateResponse
                 (obj_protocol (Scenario.V1 Scenario.key None))
                 7 "secret123#{}&1700000000" (text Scenario.genuine)
                 (Some Scenario.stamp) = Ok true) by (vm_compute; reflexivity).
  refine (conj Hb (conj Hh (conj Hne (conj Hv _)))).
  exact (proj2 (proj2
           (validSignature_three_states Scenario.transport
              (Scenario.V1 Scenario.key None) Scenario.adapter Scenario.world0
              Scenario.request Scenario.genuine Hb))
           "secret123#{}&1700000000" true Hh Hne Hv).
Defined.

(** C9, counterexample: the response carries the signature header, its value
    (the empty string) is rejected by [validateResponse], and the attribute
    is [None], not [False]. *)
Lemma blank_signature_is_not_reported_invalid :
  response_headers Scenario.blank !! Scenario.header = Some ""
  /\ BaseVersion.validateResponse (obj_protocol (Scenario.V1 Scenario.key None))
       7 "" (text Scenario.blank) (Some Scenario.stamp) = Ok false
  /\ fst (SignatureAdapter.build_response Scenario.transport Scenario.request
            Scenario.blank Scenario.serving)
     = Ok {| SignatureAdapter.response := Scenario.blank;
             SignatureAdapter.validSignature := None |}
  /\ fst (SignatureAdapter.build_response Scenario.transport Scenario.request
            Scenario.blank Scenario.serving)
     <> Ok {| SignatureAdapter.response := Scenario.blank;
              SignatureAdapter.validSignature := Some false |}.
Proof.
  split; [vm_compute; reflexivity|].
  split; [vm_compute; reflexivity|].
  assert (H : fst (SignatureAdapter.build_response Scenario.transport
                     Scenario.request Scenario.blank Scenario.serving)
              = Ok {| SignatureAdapter.response := Scenario.blank;
                      SignatureAdapter.validSignature := None |})
    by (vm_compute; reflexivity).
  split; [exact H|]. rewrite H. discriminate.
Qed.

(** C10, instance: the response with an empty signature header. *)
Lemma empty_signature_is_unsigned_witness :
  SignatureClient._signProtocol (SignatureAdapter._client Scenario.adapter)
  = PyObj (Scenario.V1 Scenario.key None)
  /\ response_headers (Scenario.transport Scenario.request Scenario.blank)
       !! BaseVersion.SIGNATURE_HEADER
            (obj_protocol (Scenario.V1 Scenario.key None)) = Some ""
  /\ SignatureAdapter.build_response Scenario.transport Scenario.request
       Scenario.blank Scenario.serving
     = (Ok {| SignatureAdapter.response := Scenario.blank;
              SignatureAdapter.validSignature := None |}, Scenario.serving).
Proof.
  assert (Hb : SignatureClient._signProtocol
                 (SignatureAdapter._client Scenario.adapter)
               = PyObj (Scenario.V1 Scenario.key None)) by reflexivity.
  assert (Hh : response_headers (Scenario.transport Scenario.request
                                   Scenario.blank)
                 !! BaseVersion.SIGNATURE_HEADER
                      (obj_protocol (Scenario.V1 Scenario.key None))
               = Some "") by (vm_compute; reflexivity).
  refine (conj Hb (conj Hh _)).
  exact (proj1 (empty_signature_is_unsigned Scenario.transport
                  (Scenario.V1 Scenario.key None) Scenario.adapter
                  Scenario.world0 Scenario.request Scenario.blank Hb Hh)).
Defined.

(** C7, instance: a signature of the right shape that is not the digest of
    the response is answered with [False]. *)
Lemma mismatch_is_false_witness :
  isinstance (PyNone (Signature:=string)) = false
  /\ SignatureClient.__init__ Scenario.V1 Scenario.key None PyNone
     = Ok Scenario.client
  /\ "0123456789abcdef"
     <> Scenario.digest Scenario.key
          (Scenario.canonicalResponse "{}" (Some Scenario.stamp))
  /\ fst (SignatureClient.validateResponse "0123456789abcdef" "{}"
            (Some Scenario.stamp) Scenario.start) = Ok false.
Proof.
  assert (Hi : isinstance (PyNone (Signature:=string)) = false) by reflexivity.
  assert (Hinit : SignatureClient.__init__ Scenario.V1 Scenario.key None PyNone
                  = Ok Scenario.client) by reflexivity.
  assert (Hne : "0123456789abcdef"
                <> Scenario.digest Scenario.key
                     (Scenario.canonicalResponse "{}" (Some Scenario.stamp)))
    by (vm_compute; discriminate).
  refine (conj Hi (conj Hinit (conj Hne _))).
  exact (proj1
           (mismatch_is_false Scenario.digest Scenario.canonicalRequest
              Scenario.canonicalResponse Scenario.formatTimestamp
              Scenario.header true Scenario.key None PyNone Scenario.client
              Hi Hinit "0123456789abcdef" "{}" (Some Scenario.stamp)
              Scenario.world0)
           Hne).
Defined.

(** * Further properties of the constructor and of the adapter *)

Section ConstructorOutcome.

Context {Signature : Type}.
Variable V1 : string -> option string -> PyObject Signature.

Local Abbreviation init := (SignatureClient.__init__ V1).
Local Abbreviation bound_to v := {| SignatureClient._signProtocol := v |}.
Local Abbreviation state c w :=
  {| SignatureClient.self := c; SignatureClient.world := w |}.

(** X1. The outcome of the constructor by cases on [signatureVersion], for
    values whose [bool()] and [str()] return and with [V1(signatureKey,
    baseUrl)] returning an object that is true: a value that is true and an
    instance of [BaseVersion] is bound as it is; a value that is false, or
    that is no instance and whose [str()] in lower case is "v1", gives a
    client bound to [V1(signatureKey, baseUrl)], whatever kind of value it
    is; for every other value the constructor raises [ValueError]. *)
Theorem constructor_outcome (key : string) (baseUrl : option string)
    (v : PyValue Signature) :
  obj_bool (V1 key baseUrl) = true ->
  init key baseUrl v
  = if py_bool v && isinstance v then Ok (bound_to v)
    else if negb (py_bool v) || String.eqb (lower (py_str v)) "v1"
         then Ok (bound_to (PyObj (V1 key baseUrl)))
         else Raise SignatureClient.unsupported.
Proof.
  intros Hb. unfold SignatureClient.__init__, py_or.
  destruct (py_bool v) eqn:Hv; cbn.
  - destruct (isinstance v) eqn:Hi; cbn.
    + rewrite Hv. reflexivity.
    + rewrite dict_get_registry.
      destruct (String.eqb _ "v1"); cbn; rewrite ?Hb; reflexivity.
  - rewrite dict_get_registry. simpl. rewrite Hb. reflexivity.
Qed.

(** X2. When a protocol instance is passed, the key and the base url play no
    part: two constructions with the same instance and different keys or
    base urls give the same client. *)
Theorem instance_ignores_key (key1 key2 : string)
    (baseUrl1 baseUrl2 : option string) (o : PyObject Signature) :
  isinstance_BaseVersion o = true ->
  obj_bool o = true ->
  init key1 baseUrl1 (PyObj o) = init key2 baseUrl2 (PyObj o)
  /\ is_ok (init key1 baseUrl1 (PyObj o)) = true.
Proof.
  intros Hi Hb. rewrite !(init_instance V1) by assumption.
  split; reflexivity.
Qed.

(** X3. On every constructed client, however its protocol was selected, reading
    [SIGNATURE_HEADER] succeeds and calls nothing, and [genTimestamp] and
    [validateResponse] return what the method of the bound protocol returns,
    an exception included, after exactly one call on it: the client adds no
    failure of its own. *)
Theorem constructed_client_delegates (key : string) (baseUrl : option string)
    (v : PyValue Signature) (client : SignatureClient.t Signature) :
  init key baseUrl v = Ok client ->
  exists o,
    SignatureClient._signProtocol client = PyObj o
    /\ forall w,
         SignatureClient.SIGNATURE_HEADER (state client w)
         = (Ok (BaseVersion.SIGNATURE_HEADER (obj_protocol o)), state client w)
         /\ SignatureClient.genTimestamp (state client w)
            = (BaseVersion.genTimestamp (obj_protocol o) (now w),
               state client (log_call o M_genTimestamp w))
         /\ forall signature body timestamp,
              SignatureClient.validateResponse signature body timestamp
                (state client w)
              = (BaseVersion.validateResponse (obj_protocol o) (now w)
                   signature body timestamp,
                 state client (log_call o M_validateResponse w)).
Proof.
  intros Hinit.
  destruct (init_bound V1 key baseUrl v client Hinit) as (o & Ho & _).
  exists o. split; [exact Ho|]. intros w. split; [|split].
  - apply (SIGNATURE_HEADER_bound o (state client w) Ho).
  - apply (genTimestamp_bound o (state client w) Ho).
  - intros. apply (validateResponse_bound o (state client w) _ _ _ Ho).
Qed.

End ConstructorOutcome.

Section AdapterHooks.

Context {Signature RawResponse : Type}.
Variable V1 : string -> option string -> PyObject Signature.
Variable HTTPAdapter_build_response : Request -> RawResponse -> Response.

Implicit Types (o : PyObject Signature) (a : SignatureAdapter.t Signature).
Implicit Types (w : World Signature) (st : SignatureAdapter.State Signature).

Local Abbreviation build_response :=
  (SignatureAdapter.build_response HTTPAdapter_build_response).
Local Abbreviation add_headers := SignatureAdapter.add_headers.
Local Abbreviation state a w :=
  {| SignatureAdapter.self := a; SignatureAdapter.world := w |}.
Local Abbreviation bound a :=
  (SignatureClient._signProtocol (SignatureAdapter._client a)).
Local Abbreviation validated r v :=
  {| SignatureAdapter.response := r; SignatureAdapter.validSignature := v |}.
Local Abbreviation cstate c w :=
  {| SignatureClient.self := c; SignatureClient.world := w |}.
Local Abbreviation stamped a ts :=
  {| SignatureAdapter._client := SignatureAdapter._client a;
     SignatureAdapter._timestamp := ts |}.
Local Abbreviation called o m :=
  {| call_receiver := o; call_method := m |}.
Local Abbreviation with_headers request hs :=
  {| url := url request; method := method request; body := body request;
     headers := hs |}.

(** What [add_headers] computes, by cases on the three protocol calls. *)
Lemma add_headers_bound o a w request :
  bound a = PyObj o ->
  add_headers request (state a w)
  = let p := obj_protocol o in
    match BaseVersion.genTimestamp p (now w) with
    | Raise e => (Raise e, state a (log_call o M_genTimestamp w))
    | Ok ts =>
        let w1 := log_call o M_signRequest (log_call o M_genTimestamp w) in
        match BaseVersion.signRequest p (now w) (url request) (method request)
                None (body request) (Some ts) with
        | Raise e => (Raise e, state (stamped a (Some ts)) w1)
        | Ok signature =>
            match BaseVersion.getHeaders p (now w) signature with
            | Raise e =>
                (Raise e,
                 state (stamped a (Some ts)) (log_call o M_getHeaders w1))
            | Ok signed =>
                (Ok (with_headers request (signed ∪ headers request)),
                 state (stamped a (Some ts)) (log_call o M_getHeaders w1))
            end
        end
    end.
Proof.
  intros Hb. destruct a as [client stamp]. cbn in Hb.
  unfold SignatureAdapter.add_headers, bind.
  rewrite on_client_bound. cbn.
  rewrite (genTimestamp_bound o (cstate client w) Hb). cbn.
  destruct (BaseVersion.genTimestamp _ _) as [ts|e]; [|reflexivity].
  unfold SignatureAdapter.set_timestamp, modify, gets. cbn.
  rewrite on_client_bound. cbn.
  rewrite (signRequest_bound o (cstate client _) _ _ _ _ _ Hb). cbn.
  destruct (BaseVersion.signRequest _ _ _ _ _ _ _) as [sig|e]; [|reflexivity].
  cbn. unfold log_call. cbn. rewrite <- !app_assoc. cbn.
  destruct (BaseVersion.getHeaders _ _ _); reflexivity.
Qed.

Lemma calls_after_three o w :
  calls (log_call o M_getHeaders
           (log_call o M_signRequest (log_call o M_genTimestamp w)))
  = (calls w
     ++ [called o M_genTimestamp; called o M_signRequest;
         called o M_getHeaders])%list.
Proof. cbn. rewrite <- !app_assoc. reflexivity. Qed.

Lemma calls_after_two o w :
  calls (log_call o M_signRequest (log_call o M_genTimestamp w))
  = (calls w ++ [called o M_genTimestamp; called o M_signRequest])%list.
Proof. cbn. rewrite <- !app_assoc. reflexivity. Qed.

(** X5. A successful [add_headers] stores the timestamp it generated, replacing
    the one stored before, signs the url, method and body of the request
    with that timestamp and without query parameters, keeps the client, and
    calls [genTimestamp], [signRequest] and [getHeaders] of the bound
    protocol, once each and in this order. *)
Theorem add_headers_signs_with_fresh_timestamp o a w request request' st' :
  bound a = PyObj o ->
  add_headers request (state a w) = (Ok request', st') ->
  exists ts signature,
    BaseVersion.genTimestamp (obj_protocol o) (now w) = Ok ts
    /\ BaseVersion.signRequest (obj_protocol o) (now w) (url request)
         (method request) None (body request) (Some ts) = Ok signature
    /\ SignatureAdapter.self st' = stamped a (Some ts)
    /\ calls (SignatureAdapter.world st')
       = (calls w
          ++ [called o M_genTimestamp; called o M_signRequest;
              called o M_getHeaders])%list.
Proof.
  intros Hb. rewrite (add_headers_bound o a w request Hb). cbn zeta.
  destruct (BaseVersion.genTimestamp _ _) as [ts|e] eqn:Hts; [|discriminate].
  destruct (BaseVersion.signRequest _ _ _ _ _ _ _) as [sig|e] eqn:Hs;
    [|discriminate].
  destruct (BaseVersion.getHeaders _ _ _) as [signed|e] eqn:Hh; [|discriminate].
  intros [= <- <-]. exists ts, sig.
  split; [reflexivity|]. split; [exact Hs|]. split; [reflexivity|].
  apply calls_after_three.
Qed.

(** X6. When [add_headers] raises, the exception is the one raised by the
    protocol. If [genTimestamp] raised, the adapter is unchanged and nothing
    else was called. If [signRequest] or [getHeaders] raised, the stored
    timestamp has already been replaced by the new one, although no request
    was signed with it, and [getHeaders] is not called after a failed
    [signRequest]. *)
Theorem add_headers_failure o a w request e st' :
  bound a = PyObj o ->
  add_headers request (state a w) = (Raise e, st') ->
  let p := obj_protocol o in
  (BaseVersion.genTimestamp p (now w) = Raise e
   /\ SignatureAdapter.self st' = a
   /\ calls (SignatureAdapter.world st')
      = (calls w ++ [called o M_genTimestamp])%list)
  \/ exists ts,
       BaseVersion.genTimestamp p (now w) = Ok ts
       /\ SignatureAdapter.self st' = stamped a (Some ts)
       /\ ((BaseVersion.signRequest p (now w) (url request) (method request)
              None (body request) (Some ts) = Raise e
            /\ calls (SignatureAdapter.world st')
               = (calls w
                  ++ [called o M_genTimestamp; called o M_signRequest])%list)
           \/ exists signature,
                BaseVersion.signRequest p (now w) (url request)
                  (method request) None (body request) (Some ts)
                = Ok signature
                /\ BaseVersion.getHeaders p (now w) signature = Raise e
                /\ calls (SignatureAdapter.world st')
                   = (calls w
                      ++ [called o M_genTimestamp; called o M_signRequest;
                          called o M_getHeaders])%list).
Proof.
  intros Hb. rewrite (add_headers_bound o a w request Hb). cbn zeta.
  destruct (BaseVersion.genTimestamp _ _) as [ts|e1] eqn:Hts.
  - destruct (BaseVersion.signRequest _ _ _ _ _ _ _) as [sig|e2] eqn:Hs.
    + destruct (BaseVersion.getHeaders _ _ _) as [signed|e3] eqn:Hh;
        [discriminate|].
      intros [= <- <-]. right. exists ts.
      split; [reflexivity|]. split; [reflexivity|]. right. exists sig.
      split; [exact Hs|]. split; [exact Hh|]. apply calls_after_three.
    + intros [= <- <-]. right. exists ts.
      split; [reflexivity|]. split; [reflexivity|]. left.
      split; [exact Hs|]. apply calls_after_two.
  - intros [= <- <-]. left. destruct a. repeat split.
Qed.

End AdapterHooks.

Section AdapterExchange.

Context {Signature RawResponse : Type}.
Variable V1 : string -> option string -> PyObject Signature.
Variable HTTPAdapter_build_response : Request -> RawResponse -> Response.

Implicit Types (o : PyObject Signature) (a : SignatureAdapter.t Signature).
Implicit Types (w : World Signature) (st : SignatureAdapter.State Signature).

Local Abbreviation build_response :=
  (SignatureAdapter.build_response HTTPAdapter_build_response).
Local Abbreviation add_headers := SignatureAdapter.add_headers.
Local Abbreviation state a w :=
  {| SignatureAdapter.self := a; SignatureAdapter.world := w |}.
Local Abbreviation bound a :=
  (SignatureClient._signProtocol (SignatureAdapter._client a)).
Local Abbreviation validated r v :=
  {| SignatureAdapter.response := r; SignatureAdapter.validSignature := v |}.
Local Abbreviation called o m :=
  {| call_receiver := o; call_method := m |}.
Local Abbreviation signature_of o response :=
  (response_headers response
     !! BaseVersion.SIGNATURE_HEADER (obj_protocol o)).

(** [build_response] with a signature that is not empty. *)
Lemma build_response_signed o a w req resp signature :
  bound a = PyObj o ->
  signature_of o (HTTPAdapter_build_response req resp) = Some signature ->
  signature <> "" ->
  build_response req resp (state a w)
  = let response := HTTPAdapter_build_response req resp in
    (result_bind
       (BaseVersion.validateResponse (obj_protocol o) (now w) signature
          (text response) (SignatureAdapter._timestamp a))
       (fun valid => Ok (validated response (Some valid))),
     state a (log_call o M_validateResponse w)).
Proof.
  intros Hb Hh Hne.
  rewrite (build_response_bound HTTPAdapter_build_response o a w req resp Hb).
  cbn zeta. rewrite Hh. cbn.
  destruct (String.eqb_spec signature ""); [contradiction|].
  destruct (BaseVersion.validateResponse _ _ _ _ _); reflexivity.
Qed.

(** X7. [build_response] never changes the adapter: client and stored timestamp
    are the same afterwards, whether it returned or raised. It calls the
    protocol at most once, and then it is [validateResponse] of the bound
    protocol; when the signature header is absent or holds the empty string
    it calls nothing. *)
Theorem build_response_effects o a w req resp :
  bound a = PyObj o ->
  let st' := snd (build_response req resp (state a w)) in
  SignatureAdapter.self st' = a
  /\ exists new,
       calls (SignatureAdapter.world st') = (calls w ++ new)%list
       /\ (new = [] \/ new = [called o M_validateResponse])
       /\ (truthy_header
             (signature_of o (HTTPAdapter_build_response req resp)) = None ->
           new = []).
Proof.
  intros Hb st'. subst st'.
  rewrite (build_response_bound HTTPAdapter_build_response o a w req resp Hb).
  cbn zeta. destruct (truthy_header _) as [signature|].
  - destruct (BaseVersion.validateResponse _ _ _ _ _);
      (split; [reflexivity|]);
      exists [called o M_validateResponse];
      (split; [reflexivity|split; [right; reflexivity|discriminate]]).
  - split; [reflexivity|]. exists []. cbn. rewrite app_nil_r.
    split; [reflexivity|split; [left; reflexivity|reflexivity]].
Qed.

(** X8. An exception raised by [validateResponse] is not turned into [False] or
    [None]: [build_response] raises it, and hands no response back. *)
Theorem build_response_propagates o a w req resp signature e :
  bound a = PyObj o ->
  signature_of o (HTTPAdapter_build_response req resp) = Some signature ->
  signature <> "" ->
  BaseVersion.validateResponse (obj_protocol o) (now w) signature
    (text (HTTPAdapter_build_response req resp))
    (SignatureAdapter._timestamp a) = Raise e ->
  fst (build_response req resp (state a w)) = Raise e.
Proof.
  intros Hb Hh Hne Hv.
  rewrite (build_response_signed o a w req resp signature Hb Hh Hne).
  cbn. rewrite Hv. reflexivity.
Qed.

(** X9. The timestamp is threaded from signing to validation: after a
    successful [add_headers], [build_response] checks a signature that is
    not empty against the text of the response and the very timestamp that
    was generated for, and used in, the signature of the request, at
    whatever later time the response arrives. *)
Theorem response_checked_with_signing_timestamp
    o a w request request' st1 w2 req resp signature :
  bound a = PyObj o ->
  add_headers request (state a w) = (Ok request', st1) ->
  signature_of o (HTTPAdapter_build_response req resp) = Some signature ->
  signature <> "" ->
  exists ts signed,
    BaseVersion.genTimestamp (obj_protocol o) (now w) = Ok ts
    /\ BaseVersion.signRequest (obj_protocol o) (now w) (url request)
         (method request) None (body request) (Some ts) = Ok signed
    /\ fst (build_response req resp (state (SignatureAdapter.self st1) w2))
       = result_bind
           (BaseVersion.validateResponse (obj_protocol o) (now w2) signature
              (text (HTTPAdapter_build_response req resp)) (Some ts))
           (fun valid =>
              Ok (validated (HTTPAdapter_build_response req resp)
                    (Some valid))).
Proof.
  intros Hb Hadd Hh Hne.
  destruct (add_headers_records_timestamp o a w request request' st1 Hb Hadd)
    as (ts & sig & hs & Hts & Hs & _ & Hstamp & Hclient & _).
  exists ts, sig. split; [exact Hts|]. split; [exact Hs|].
  assert (Hb1 : bound (SignatureAdapter.self st1) = PyObj o)
    by (rewrite Hclient; exact Hb).
  rewrite (build_response_signed o _ w2 req resp signature Hb1 Hh Hne).
  cbn. rewrite Hstamp. reflexivity.
Qed.

(** X10. The adapter holds one timestamp. When a second request is signed before
    the response to the first one is built, that response is checked with
    the timestamp of the second request. *)
Theorem latest_timestamp_is_used
    o a w1 w2 w3 request1 request1' st1 request2 request2' st2 ts2
    resp signature :
  bound a = PyObj o ->
  add_headers request1 (state a w1) = (Ok request1', st1) ->
  add_headers request2 (state (SignatureAdapter.self st1) w2)
    = (Ok request2', st2) ->
  BaseVersion.genTimestamp (obj_protocol o) (now w2) = Ok ts2 ->
  signature_of o (HTTPAdapter_build_response request1' resp) = Some signature ->
  signature <> "" ->
  fst (build_response request1' resp (state (SignatureAdapter.self st2) w3))
  = result_bind
      (BaseVersion.validateResponse (obj_protocol o) (now w3) signature
         (text (HTTPAdapter_build_response request1' resp)) (Some ts2))
      (fun valid =>
         Ok (validated (HTTPAdapter_build_response request1' resp)
               (Some valid))).
Proof.
  intros Hb Hadd1 Hadd2 Hts2 Hh Hne.
  destruct (add_headers_records_timestamp o a w1 _ _ st1 Hb Hadd1)
    as (ts1 & sig1 & hs1 & _ & _ & _ & _ & Hclient1 & _).
  assert (Hb1 : bound (SignatureAdapter.self st1) = PyObj o)
    by (rewrite Hclient1; exact Hb).
  destruct (add_headers_records_timestamp o _ w2 _ _ st2 Hb1 Hadd2)
    as (ts & sig2 & hs2 & Hts & _ & _ & Hstamp & Hclient2 & _).
  assert (Hb2 : bound (SignatureAdapter.self st2) = PyObj o)
    by (rewrite Hclient2; exact Hb1).
  rewrite (build_response_signed o _ w3 _ resp signature Hb2 Hh Hne).
  cbn. rewrite Hstamp. congruence.
Qed.

(** X11. The outcome of the constructor of the adapter, for every value of
    [signatureVersion]: it raises [ValueError] exactly when the constructor
    of the client does, and otherwise the adapter holds the client built
    from the same arguments and no timestamp. *)
Theorem adapter_constructor_outcome (key : string) (baseUrl : option string)
    (v : PyValue Signature) :
  obj_bool (V1 key baseUrl) = true ->
  SignatureAdapter.__init__ V1 key baseUrl v
  = if py_bool v && isinstance v then
      Ok {| SignatureAdapter._client :=
              {| SignatureClient._signProtocol := v |};
            SignatureAdapter._timestamp := None |}
    else if negb (py_bool v) || String.eqb (lower (py_str v)) "v1" then
      Ok {| SignatureAdapter._client :=
              {| SignatureClient._signProtocol := PyObj (V1 key baseUrl) |};
            SignatureAdapter._timestamp := None |}
    else Raise SignatureClient.unsupported.
Proof.
  intros Hb. unfold SignatureAdapter.__init__, SignatureClient.__init__, py_or.
  destruct (py_bool v) eqn:Hv; cbn.
  - destruct (isinstance v) eqn:Hi; cbn.
    + rewrite Hv. reflexivity.
    + rewrite dict_get_registry.
      destruct (String.eqb _ "v1"); cbn; rewrite ?Hb; reflexivity.
  - rewrite dict_get_registry. simpl. rewrite Hb. reflexivity.
Qed.

(** X12. An adapter that has just been constructed has signed nothing: a response
    that carries a signature is checked with the timestamp [None]. *)
Theorem fresh_adapter_checks_without_timestamp
    (key : string) (baseUrl : option string) (v : PyValue Signature)
    a w req resp :
  SignatureAdapter.__init__ V1 key baseUrl v = Ok a ->
  exists o,
    bound a = PyObj o
    /\ SignatureAdapter._timestamp a = None
    /\ forall signature,
         signature_of o (HTTPAdapter_build_response req resp) = Some signature ->
         signature <> "" ->
         fst (build_response req resp (state a w))
         = result_bind
             (BaseVersion.validateResponse (obj_protocol o) (now w) signature
                (text (HTTPAdapter_build_response req resp)) None)
             (fun valid =>
                Ok (validated (HTTPAdapter_build_response req resp)
                      (Some valid))).
Proof.
  unfold SignatureAdapter.__init__.
  destruct (SignatureClient.__init__ V1 key baseUrl v) as [client|e] eqn:Hinit;
    cbn; [|discriminate].
  intros [= <-].
  destruct (init_bound V1 key baseUrl v client Hinit) as (o & Ho & _).
  exists o. split; [exact Ho|]. split; [reflexivity|].
  intros signature Hh Hne.
  rewrite (build_response_signed o
             {| SignatureAdapter._client := client;
                SignatureAdapter._timestamp := None |}
             w req resp signature Ho Hh Hne).
  reflexivity.
Qed.

End AdapterExchange.

Section AdapterSequences.

Context {Signature RawResponse : Type}.
Variable V1 : string -> option string -> PyObject Signature.
Variable HTTPAdapter_build_response : Request -> RawResponse -> Response.

Implicit Types (o : PyObject Signature) (a : SignatureAdapter.t Signature).
Implicit Types (w : World Signature) (st : SignatureAdapter.State Signature).

Local Abbreviation perform :=
  (SignatureAdapter.perform HTTPAdapter_build_response).
Local Abbreviation run := (SignatureAdapter.run HTTPAdapter_build_response).
Local Abbreviation state a w :=
  {| SignatureAdapter.self := a; SignatureAdapter.world := w |}.
Local Abbreviation bound a :=
  (SignatureClient._signProtocol (SignatureAdapter._client a)).

(** The stored timestamp is absent or was returned by [genTimestamp]. *)
Local Abbreviation generated o stamp :=
  (stamp = None
   \/ exists ts clock,
        stamp = Some ts
        /\ BaseVersion.genTimestamp (obj_protocol o) clock = Ok ts).

(** A later state of the adapter: same client, calls added on [o] only. *)
Local Abbreviation extends o st st' :=
  (SignatureAdapter._client (SignatureAdapter.self st')
   = SignatureAdapter._client (SignatureAdapter.self st)
   /\ exists new,
        calls (SignatureAdapter.world st')
        = app (calls (SignatureAdapter.world st)) new
        /\ Forall (fun c => call_receiver c = o) new).

Lemma perform_extends o op st :
  bound (SignatureAdapter.self st) = PyObj o ->
  generated o (SignatureAdapter._timestamp (SignatureAdapter.self st)) ->
  extends o st (perform op st)
  /\ generated o
       (SignatureAdapter._timestamp (SignatureAdapter.self (perform op st))).
Proof.
  intros Hb Hg. destruct st as [a w]. cbn in Hb, Hg.
  destruct op as [request|req resp]; cbn.
  - rewrite (add_headers_bound o a w request Hb). cbn zeta.
    destruct (BaseVersion.genTimestamp _ _) as [ts|e] eqn:Hts.
    + assert (Hgen : generated o (Some ts)) by (right; eauto).
      destruct (BaseVersion.signRequest _ _ _ _ _ _ _) as [sig|e];
        [destruct (BaseVersion.getHeaders _ _ _)|]; cbn;
        (split; [split; [reflexivity|]|exact Hgen]).
      * eexists. rewrite <- !app_assoc. split; [reflexivity|].
        repeat constructor.
      * eexists. rewrite <- !app_assoc. split; [reflexivity|].
        repeat constructor.
      * eexists. rewrite <- !app_assoc. split; [reflexivity|].
        repeat constructor.
    + cbn. split; [split; [reflexivity|]|exact Hg].
      eexists. split; [reflexivity|]. repeat constructor.
  - rewrite (build_response_bound HTTPAdapter_build_response o a w req resp Hb).
    cbn zeta. destruct (truthy_header _) as [signature|].
    + destruct (BaseVersion.validateResponse _ _ _ _ _); cbn;
        (split; [split; [reflexivity|]|exact Hg]);
        (eexists; split; [reflexivity|repeat constructor]).
    + cbn. split; [split; [reflexivity|]|exact Hg].
      exists []. rewrite app_nil_r. split; [reflexivity|constructor].
Qed.

Lemma run_extends o ops st :
  bound (SignatureAdapter.self st) = PyObj o ->
  generated o (SignatureAdapter._timestamp (SignatureAdapter.self st)) ->
  extends o st (run ops st)
  /\ generated o
       (SignatureAdapter._timestamp (SignatureAdapter.self (run ops st))).
Proof.
  revert st. induction ops as [|op ops IH]; intros st Hb Hg; cbn.
  - split; [split; [reflexivity|]|exact Hg].
    exists []. rewrite app_nil_r. split; [reflexivity|constructor].
  - destruct (perform_extends o op st Hb Hg) as [[Hc (new1 & Hn1 & Hf1)] Hg1].
    assert (Hb1 : bound (SignatureAdapter.self (perform op st)) = PyObj o)
      by (rewrite Hc; exact Hb).
    destruct (IH (perform op st) Hb1 Hg1) as [[Hc2 (new2 & Hn2 & Hf2)] Hg2].
    split; [split|exact Hg2].
    + rewrite Hc2. exact Hc.
    + exists (new1 ++ new2)%list. rewrite Hn2, Hn1, <- app_assoc.
      split; [reflexivity|]. apply Forall_app. split; assumption.
Qed.

(** X13. Whatever sequence of [add_headers] and [build_response] the transport
    runs on a constructed adapter, exceptions included, the adapter keeps
    the client it was constructed with, every protocol call of the sequence
    is made on the protocol of that client, and the stored timestamp is
    either absent or one that [genTimestamp] of that protocol returned. *)
Theorem adapter_keeps_its_client (key : string) (baseUrl : option string)
    (v : PyValue Signature) a :
  SignatureAdapter.__init__ V1 key baseUrl v = Ok a ->
  forall (ops : list SignatureAdapter.Op) w,
    let st' := run ops (state a w) in
    SignatureAdapter._client (SignatureAdapter.self st')
    = SignatureAdapter._client a
    /\ exists o new,
         bound a = PyObj o
         /\ calls (SignatureAdapter.world st') = (calls w ++ new)%list
         /\ Forall (fun c => call_receiver c = o) new
         /\ generated o
              (SignatureAdapter._timestamp (SignatureAdapter.self st')).
Proof.
  unfold SignatureAdapter.__init__.
  destruct (SignatureClient.__init__ V1 key baseUrl v) as [client|e] eqn:Hinit;
    cbn; [|discriminate].
  intros [= <-] ops w.
  destruct (init_bound V1 key baseUrl v client Hinit) as (o & Ho & _).
  destruct (run_extends o ops
              (state {| SignatureAdapter._client := client;
                        SignatureAdapter._timestamp := None |} w))
    as [[Hc (new & Hn & Hf)] Hg]; [exact Ho|left; reflexivity|].
  cbn zeta. split; [exact Hc|].
  exists o, new. repeat split; assumption.
Qed.

End AdapterSequences.

(** ** Instances of the further properties *)

Lemma constructor_outcome_witness :
  obj_bool (Scenario.V1 Scenario.key None) = true
  /\ SignatureClient.__init__ Scenario.V1 Scenario.key None
       (PyOther true "V1")
     = Ok Scenario.client.
Proof.
  assert (Hb : obj_bool (Scenario.V1 Scenario.key None) = true) by reflexivity.
  refine (conj Hb _).
  exact (constructor_outcome Scenario.V1 Scenario.key None (PyOther true "V1")
           Hb).
Defined.

Lemma instance_ignores_key_witness :
  isinstance_BaseVersion Scenario.refusing = true
  /\ obj_bool Scenario.refusing = true
  /\ SignatureClient.__init__ Scenario.V1 "one key" None
       (PyObj Scenario.refusing)
     = SignatureClient.__init__ Scenario.V1 "another key" (Some "https://host")
         (PyObj Scenario.refusing).
Proof.
  assert (Hi : isinstance_BaseVersion Scenario.refusing = true) by reflexivity.
  assert (Hb : obj_bool Scenario.refusing = true) by reflexivity.
  refine (conj Hi (conj Hb _)).
  exact (proj1 (instance_ignores_key Scenario.V1 "one key" "another key" None
                  (Some "https://host") Scenario.refusing Hi Hb)).
Defined.

Lemma constructed_client_delegates_witness :
  SignatureClient.__init__ Scenario.V1 Scenario.key None (PyStr "V1")
  = Ok Scenario.client
  /\ exists o,
       SignatureClient._signProtocol Scenario.client = PyObj o
       /\ SignatureClient.SIGNATURE_HEADER Scenario.start
          = (Ok (BaseVersion.SIGNATURE_HEADER (obj_protocol o)), Scenario.start).
Proof.
  assert (Hinit : SignatureClient.__init__ Scenario.V1 Scenario.key None
                    (PyStr "V1") = Ok Scenario.client) by reflexivity.
  refine (conj Hinit _).
  destruct (constructed_client_delegates Scenario.V1 Scenario.key None
              (PyStr "V1") Scenario.client Hinit) as (o & Ho & Hall).
  exists o. exact (conj Ho (proj1 (Hall Scenario.world0))).
Defined.

Lemma add_headers_signs_with_fresh_timestamp_witness :
  exists request' st',
    SignatureClient._signProtocol (SignatureAdapter._client Scenario.adapter)
    = PyObj (Scenario.V1 Scenario.key None)
    /\ SignatureAdapter.add_headers Scenario.tagged Scenario.serving
       = (Ok request', st')
    /\ exists ts,
         BaseVersion.genTimestamp
           (obj_protocol (Scenario.V1 Scenario.key None)) 7 = Ok ts
         /\ SignatureAdapter._timestamp (SignatureAdapter.self st') = Some ts.
Proof.
  assert (Hb : SignatureClient._signProtocol
                 (SignatureAdapter._client Scenario.adapter)
               = PyObj (Scenario.V1 Scenario.key None)) by reflexivity.
  eexists _, _.
  refine (conj Hb _).
  refine ((fun Hadd => conj Hadd _) (eq_refl : _ = (Ok _, _))).
  destruct (add_headers_signs_with_fresh_timestamp
              (Scenario.V1 Scenario.key None) Scenario.adapter Scenario.world0
              Scenario.tagged _ _ Hb Hadd)
    as (ts & sig & Hts & _ & Hself & _).
  exists ts. split; [exact Hts|]. rewrite Hself. reflexivity.
Defined.

Lemma add_headers_failure_witness :
  exists st',
    SignatureClient._signProtocol
      (SignatureAdapter._client (SignatureAdapter.self Scenario.stuck))
    = PyObj Scenario.refusing
    /\ SignatureAdapter.add_headers Scenario.request Scenario.stuck
       = (Raise (ProtocolError "cannot sign"), st')
    /\ SignatureAdapter._timestamp (SignatureAdapter.self st') <> Some "".
Proof.
  assert (Hb : SignatureClient._signProtocol
                 (SignatureAdapter._client (SignatureAdapter.self Scenario.stuck))
               = PyObj Scenario.refusing) by reflexivity.
  eexists.
  refine (conj Hb _).
  refine ((fun Hadd => conj Hadd _) (eq_refl : _ = (Raise _, _))).
  destruct (add_headers_failure Scenario.refusing
              (SignatureAdapter.self Scenario.stuck) Scenario.world0
              Scenario.request _ _ Hb Hadd)
    as [(Hts & _)|(ts & Hts & Hself & _)].
  - discriminate Hts.
  - rewrite Hself. injection Hts as <-. discriminate.
Defined.

Lemma build_response_effects_witness :
  SignatureClient._signProtocol (SignatureAdapter._client Scenario.adapter)
  = PyObj (Scenario.V1 Scenario.key None)
  /\ SignatureAdapter.self
       (snd (SignatureAdapter.build_response Scenario.transport
               Scenario.request Scenario.forged Scenario.serving))
     = Scenario.adapter.
Proof.
  assert (Hb : SignatureClient._signProtocol
                 (SignatureAdapter._client Scenario.adapter)
               = PyObj (Scenario.V1 Scenario.key None)) by reflexivity.
  refine (conj Hb _).
  exact (proj1 (build_response_effects Scenario.transport
                  (Scenario.V1 Scenario.key None) Scenario.adapter
                  Scenario.world0 Scenario.request Scenario.forged Hb)).
Defined.

Lemma build_response_propagates_witness :
  SignatureClient._signProtocol
    (SignatureAdapter._client (SignatureAdapter.self Scenario.stuck))
  = PyObj Scenario.refusing
  /\ response_headers (Scenario.transport Scenario.request Scenario.forged)
       !! BaseVersion.SIGNATURE_HEADER (obj_protocol Scenario.refusing)
     = Some "0123456789abcdef"
  /\ "0123456789abcdef" <> ""
  /\ BaseVersion.validateResponse (obj_protocol Scenario.refusing) 7
       "0123456789abcdef"
       (text (Scenario.transport Scenario.request Scenario.forged))
       (SignatureAdapter._timestamp (SignatureAdapter.self Scenario.stuck))
     = Raise (ProtocolError "cannot validate")
  /\ fst (SignatureAdapter.build_response Scenario.transport Scenario.request
            Scenario.forged Scenario.stuck)
     = Raise (ProtocolError "cannot validate").
Proof.
  assert (Hb : SignatureClient._signProtocol
                 (SignatureAdapter._client (SignatureAdapter.self Scenario.stuck))
               = PyObj Scenario.refusing) by reflexivity.
  assert (Hh : response_headers
                 (Scenario.transport Scenario.request Scenario.forged)
                 !! BaseVersion.SIGNATURE_HEADER
                      (obj_protocol Scenario.refusing)
               = Some "0123456789abcdef") by (vm_compute; reflexivity).
  assert (Hne : "0123456789abcdef" <> "") by discriminate.
  assert (Hv : BaseVersion.validateResponse (obj_protocol Scenario.refusing) 7
                 "0123456789abcdef"
                 (text (Scenario.transport Scenario.request Scenario.forged))
                 (SignatureAdapter._timestamp
                    (SignatureAdapter.self Scenario.stuck))
               = Raise (ProtocolError "cannot validate")) by reflexivity.
  refine (conj Hb (conj Hh (conj Hne (conj Hv _)))).
  exact (build_response_propagates Scenario.transport Scenario.refusing
           (SignatureAdapter.self Scenario.stuck) Scenario.world0
           Scenario.request Scenario.forged "0123456789abcdef" _ Hb Hh Hne Hv).
Defined.

Lemma response_checked_with_signing_timestamp_witness :
  exists request' st1,
    SignatureClient._signProtocol (SignatureAdapter._client Scenario.idle)
    = PyObj (Scenario.V1 Scenario.key None)
    /\ SignatureAdapter.add_headers Scenario.request
         {| SignatureAdapter.self := Scenario.idle;
            SignatureAdapter.world := Scenario.world0 |}
       = (Ok request', st1)
    /\ response_headers (Scenario.transport request' Scenario.forged)
         !! BaseVersion.SIGNATURE_HEADER
              (obj_protocol (Scenario.V1 Scenario.key None))
       = Some "0123456789abcdef"
    /\ "0123456789abcdef" <> ""
    /\ exists ts,
         BaseVersion.genTimestamp
           (obj_protocol (Scenario.V1 Scenario.key None)) 7 = Ok ts
         /\ fst (SignatureAdapter.build_response Scenario.transport request'
                   Scenario.forged
                   {| SignatureAdapter.self := SignatureAdapter.self st1;
                      SignatureAdapter.world := Scenario.later |})
            = result_bind
                (BaseVersion.validateResponse
                   (obj_protocol (Scenario.V1 Scenario.key None)) 9
                   "0123456789abcdef" (text Scenario.forged) (Some ts))
                (fun valid =>
                   Ok {| SignatureAdapter.response := Scenario.forged;
                         SignatureAdapter.validSignature := Some valid |}).
Proof.
  assert (Hb : SignatureClient._signProtocol
                 (SignatureAdapter._client Scenario.idle)
               = PyObj (Scenario.V1 Scenario.key None)) by reflexivity.
  assert (Hne : "0123456789abcdef" <> "") by discriminate.
  eexists _, _.
  refine (conj Hb _).
  refine ((fun Hadd => conj Hadd _) (eq_refl : _ = (Ok _, _))).
  refine ((fun Hh => conj Hh (conj Hne _))
            (_ : response_headers (Scenario.transport _ Scenario.forged)
                   !! BaseVersion.SIGNATURE_HEADER
                        (obj_protocol (Scenario.V1 Scenario.key None))
                 = Some "0123456789abcdef")); [|vm_compute; reflexivity].
  destruct (response_checked_with_signing_timestamp Scenario.transport
              (Scenario.V1 Scenario.key None) Scenario.idle Scenario.world0
              Scenario.request _ _ Scenario.later _ Scenario.forged
              "0123456789abcdef" Hb Hadd Hh Hne)
    as (ts & sig & Hts & _ & Hout).
  exists ts. exact (conj Hts Hout).
Defined.

Lemma latest_timestamp_is_used_witness :
  exists request1' st1 request2' st2,
    SignatureClient._signProtocol (SignatureAdapter._client Scenario.idle)
    = PyObj (Scenario.V1 Scenario.key None)
    /\ SignatureAdapter.add_headers Scenario.request
         {| SignatureAdapter.self := Scenario.idle;
            SignatureAdapter.world := Scenario.world0 |}
       = (Ok request1', st1)
    /\ SignatureAdapter.add_headers Scenario.tagged
         {| SignatureAdapter.self := SignatureAdapter.self st1;
            SignatureAdapter.world := Scenario.later |}
       = (Ok request2', st2)
    /\ BaseVersion.genTimestamp
         (obj_protocol (Scenario.V1 Scenario.key None)) 9 = Ok "9"
    /\ response_headers (Scenario.transport request1' Scenario.forged)
         !! BaseVersion.SIGNATURE_HEADER
              (obj_protocol (Scenario.V1 Scenario.key None))
       = Some "0123456789abcdef"
    /\ "0123456789abcdef" <> ""
    /\ fst (SignatureAdapter.build_response Scenario.transport request1'
              Scenario.forged
              {| SignatureAdapter.self := SignatureAdapter.self st2;
                 SignatureAdapter.world := Scenario.later |})
       = result_bind
           (BaseVersion.validateResponse
              (obj_protocol (Scenario.V1 Scenario.key None)) 9
              "0123456789abcdef" (text Scenario.forged) (Some "9"))
           (fun valid =>
              Ok {| SignatureAdapter.response := Scenario.forged;
                    SignatureAdapter.validSignature := Some valid |}).
Proof.
  assert (Hb : SignatureClient._signProtocol
                 (SignatureAdapter._client Scenario.idle)
               = PyObj (Scenario.V1 Scenario.key None)) by reflexivity.
  assert (Hts : BaseVersion.genTimestamp
                  (obj_protocol (Scenario.V1 Scenario.key None)) 9 = Ok "9")
    by reflexivity.
  assert (Hne : "0123456789abcdef" <> "") by discriminate.
  pose (out1 := SignatureAdapter.add_headers Scenario.request
                  {| SignatureAdapter.self := Scenario.idle;
                     SignatureAdapter.world := Scenario.world0 |}).
  pose (out2 := SignatureAdapter.add_headers Scenario.tagged
                  {| SignatureAdapter.self := SignatureAdapter.self (snd out1);
                     SignatureAdapter.world := Scenario.later |}).
  pose (signed1 := match fst out1 with Ok r => r | Raise _ => Scenario.request end).
  pose (signed2 := match fst out2 with Ok r => r | Raise _ => Scenario.tagged end).
  exists signed1, (snd out1), signed2, (snd out2).
  assert (Hadd1 : out1 = (Ok signed1, snd out1)) by reflexivity.
  assert (Hadd2 : out2 = (Ok signed2, snd out2)) by reflexivity.
  assert (Hh : response_headers (Scenario.transport signed1 Scenario.forged)
                 !! BaseVersion.SIGNATURE_HEADER
                      (obj_protocol (Scenario.V1 Scenario.key None))
               = Some "0123456789abcdef") by (vm_compute; reflexivity).
  refine (conj Hb (conj Hadd1 (conj Hadd2 (conj Hts (conj Hh (conj Hne _)))))).
  exact (latest_timestamp_is_used Scenario.transport
           (Scenario.V1 Scenario.key None) Scenario.idle Scenario.world0
           Scenario.later Scenario.later Scenario.request _ _ Scenario.tagged
           _ _ "9" Scenario.forged "0123456789abcdef"
           Hb Hadd1 Hadd2 Hts Hh Hne).
Defined.

Lemma adapter_constructor_outcome_witness :
  obj_bool (Scenario.V1 Scenario.key None) = true
  /\ SignatureAdapter.__init__ Scenario.V1 Scenario.key None (PyStr "v2")
     = Raise SignatureClient.unsupported.
Proof.
  assert (Hb : obj_bool (Scenario.V1 Scenario.key None) = true) by reflexivity.
  refine (conj Hb _).
  exact (adapter_constructor_outcome Scenario.V1 Scenario.key None
           (PyStr "v2") Hb).
Defined.

Lemma fresh_adapter_checks_without_timestamp_witness :
  SignatureAdapter.__init__ Scenario.V1 Scenario.key None PyNone
  = Ok Scenario.idle
  /\ exists o,
       SignatureClient._signProtocol (SignatureAdapter._client Scenario.idle)
       = PyObj o
       /\ SignatureAdapter._timestamp Scenario.idle = None.
Proof.
  assert (Hinit : SignatureAdapter.__init__ Scenario.V1 Scenario.key None PyNone
                  = Ok Scenario.idle) by reflexivity.
  refine (conj Hinit _).
  destruct (fresh_adapter_checks_without_timestamp Scenario.V1
              Scenario.transport Scenario.key None PyNone Scenario.idle
              Scenario.world0 Scenario.request Scenario.forged Hinit)
    as (o & Ho & Hstamp & _).
  exists o. exact (conj Ho Hstamp).
Defined.

Lemma adapter_keeps_its_client_witness :
  SignatureAdapter.__init__ Scenario.V1 Scenario.key None PyNone
  = Ok Scenario.idle
  /\ SignatureAdapter._client
       (SignatureAdapter.self
          (SignatureAdapter.run Scenario.transport
             [SignatureAdapter.Call_add_headers Scenario.request;
              SignatureAdapter.Call_add_headers Scenario.tagged;
              SignatureAdapter.Call_build_response Scenario.request
                Scenario.forged;
              SignatureAdapter.Call_build_response Scenario.tagged
                Scenario.blank]
             {| SignatureAdapter.self := Scenario.idle;
                SignatureAdapter.world := Scenario.world0 |}))
     = Scenario.client.
Proof.
  assert (Hinit : SignatureAdapter.__init__ Scenario.V1 Scenario.key None PyNone
                  = Ok Scenario.idle) by reflexivity.
  refine (conj Hinit _).
  exact (proj1 (adapter_keeps_its_client Scenario.V1 Scenario.transport
                  Scenario.key None PyNone Scenario.idle Hinit _
                  Scenario.world0)).
Defined.
